(** * Ada-GVAE / Ada-ML-VAE adaptive averaging (disent, [adavae.py])

    A shallow embedding of [disent/frameworks/semisupervised/adavae.py]:
    the two averaging functions, the KL-delta and threshold estimators,
    [estimate_unchanged], and the [AdaVaeLoss] constructor and its
    [intercept_z] method, which overwrites its argument tensors in place.

    Modelling choices.
    - A torch tensor of shape [[batch, latent_dim]] is a [tensor]: its
      column count and its rows.  One-dimensional tensors are lists.
    - Tensor elements are real numbers ([R]); rounding, overflow, infinities
      and NaN of IEEE floats are outside the model.
    - Python exceptions are values of [exn]; functions that can raise
      return a [result].
    - Tensors passed to [intercept_z] are references into a [heap], so that
      the in-place masked assignments and possible aliasing between the
      arguments are visible. *)

From Stdlib Require Import Reals Lra Lia.
From stdpp Require Import base option list functions gmap strings.

(** ** Exceptions and the error monad *)

Inductive exn : Type :=
| KeyError (msg : string)   (* dict lookup failure, raised by [__init__] *)
| RuntimeError              (* torch: operand sizes do not match / cannot broadcast *)
| IndexError                (* torch: mask shape mismatch, reduction over an empty dim *)
| ValueError                (* tuple unpacking of the wrong length *)
| AssertionError.           (* a failed [assert] *)

Inductive result (A : Type) : Type :=
| Ok (a : A)
| Raise (e : exn).
Arguments Ok {A} a.
Arguments Raise {A} e.

#[global] Instance result_ret : MRet result := fun _ a => Ok a.
#[global] Instance result_bind : MBind result := fun _ _ f m =>
  match m with
  | Ok a => f a
  | Raise e => Raise e
  end.

(** ** Two-dimensional tensors *)

Record tensor (A : Type) : Type := Tensor { ncols : nat; rows : list (list A) }.
Arguments Tensor {A} ncols rows.
Arguments ncols {A} t.
Arguments rows {A} t.

Section tensors.
Context {A B C : Type}.

Definition nrows (t : tensor A) : nat := length (rows t).

(** [t.shape] *)
Definition shape (t : tensor A) : nat * nat := (nrows t, ncols t).

(** Every row has [ncols t] entries. *)
Definition wf (t : tensor A) : Prop :=
  Forall (fun r => length r = ncols t) (rows t).

Definition has_shape (t : tensor A) (b d : nat) : Prop :=
  nrows t = b /\ ncols t = d /\ wf t.

(** [t[b, d]], when in range *)
Definition elem (t : tensor A) (b d : nat) : option A :=
  match rows t !! b with
  | Some r => r !! d
  | None => None
  end.

(** Unary elementwise operation. *)
Definition tmap (f : A -> B) (t : tensor A) : tensor B :=
  Tensor (ncols t) (fmap (M:=list) (fmap (M:=list) f) (rows t)).
End tensors.

Section broadcasting.
Context {A B C : Type}.

(** Size of a broadcast dimension: equal sizes, or one of them is 1. *)
Definition bcast_dim (n m : nat) : option nat :=
  if decide (n = m) then Some n
  else if decide (n = 1) then Some m
  else if decide (m = 1) then Some n
  else None.

(** Expand a dimension of size 1 to size [k]; other sizes are kept. *)
Definition stretch {X : Type} (k : nat) (l : list X) : list X :=
  match l with
  | [x] => replicate k x
  | _ => l
  end.

(** Same-shape pointwise combination. *)
Definition tzip (f : A -> B -> C) (a : tensor A) (b : tensor B) : tensor C :=
  Tensor (ncols a) (zip_with (zip_with f) (rows a) (rows b)).

(** Binary elementwise operation with torch broadcasting;
    incompatible shapes raise [RuntimeError]. *)
Definition binop (f : A -> B -> C) (a : tensor A) (b : tensor B)
  : result (tensor C) :=
  match bcast_dim (nrows a) (nrows b), bcast_dim (ncols a) (ncols b) with
  | Some r, Some c =>
      Ok (Tensor c
            (zip_with (fun ra rb => zip_with f (stretch c ra) (stretch c rb))
               (stretch r (rows a)) (stretch r (rows b))))
  | _, _ => Raise RuntimeError
  end.

(** Binary operation on one-dimensional tensors, with broadcasting. *)
Definition binop1 (f : A -> B -> C) (a : list A) (b : list B)
  : result (list C) :=
  match bcast_dim (length a) (length b) with
  | Some n => Ok (zip_with f (stretch n a) (stretch n b))
  | None => Raise RuntimeError
  end.
End broadcasting.

Section masks.
Context {A : Type}.

(** Entries of a row at the [true] positions of the mask row. *)
Fixpoint select_row (r : list A) (m : list bool) : list A :=
  match r, m with
  | x :: r', b :: m' => if b then x :: select_row r' m' else select_row r' m'
  | _, _ => []
  end.

(** [t[mask]]: the selected entries, in row-major order. *)
Definition masked_select (t : tensor A) (mask : tensor bool)
  : result (list A) :=
  if decide (shape mask = shape t)
  then Ok (concat (zip_with select_row (rows t) (rows mask)))
  else Raise IndexError.

Definition count_true (mask : tensor bool) : nat :=
  length (filter (fun b => b = true) (concat (rows mask))).

(** Write [vals], in order, at the [true] positions of one row;
    returns the new row and the values left over. *)
Fixpoint scatter_row (r : list A) (m : list bool) (vals : list A)
  : list A * list A :=
  match r, m with
  | x :: r', b :: m' =>
      if b then
        match vals with
        | v :: vals' =>
            let '(r'', rest) := scatter_row r' m' vals' in (v :: r'', rest)
        | [] => let '(r'', rest) := scatter_row r' m' [] in (x :: r'', rest)
        end
      else let '(r'', rest) := scatter_row r' m' vals in (x :: r'', rest)
  | _, _ => (r, vals)
  end.

Fixpoint scatter (rs : list (list A)) (ms : list (list bool)) (vals : list A)
  : list (list A) :=
  match rs, ms with
  | r :: rs', m :: ms' =>
      let '(r', rest) := scatter_row r m vals in r' :: scatter rs' ms' rest
  | _, _ => rs
  end.

(** [t[mask] = vals]: the new contents of [t].  The mask must have the
    shape of [t]; [vals] must have one entry per [true] position, or a
    single entry, which is then broadcast. *)
Definition masked_assign (t : tensor A) (mask : tensor bool) (vals : list A)
  : result (tensor A) :=
  if decide (shape mask = shape t) then
    if decide (length vals = count_true mask)
    then Ok (Tensor (ncols t) (scatter (rows t) (rows mask) vals))
    else match vals with
         | [v] => Ok (Tensor (ncols t)
                        (scatter (rows t) (rows mask)
                           (replicate (count_true mask) v)))
         | _ => Raise RuntimeError
         end
  else Raise IndexError.

Definition pick (b : bool) (xy : A * A) : A := if b then xy.1 else xy.2.

(** [where(mask, a, t)]: the closed form of select-then-assign. *)
Definition twhere (mask : tensor bool) (a t : tensor A) : tensor A :=
  tzip pick mask (tzip pair a t).
End masks.

(** ** Real-valued tensor operations used by [adavae.py] *)

#[global] Instance Rlt_decision (x y : R) : Decision (x < y)%R := Rlt_dec x y.

Section real_ops.
Local Open Scope R_scope.

Definition t_exp : tensor R -> tensor R := tmap exp.
Definition t_log : tensor R -> tensor R := tmap ln.
Definition t_reciprocal : tensor R -> tensor R := tmap Rinv.
Definition t_pow (t : tensor R) (n : nat) : tensor R := tmap (fun x => x ^ n) t.

Definition t_add : tensor R -> tensor R -> result (tensor R) := binop Rplus.
Definition t_sub : tensor R -> tensor R -> result (tensor R) := binop Rminus.
Definition t_mul : tensor R -> tensor R -> result (tensor R) := binop Rmult.
Definition t_div : tensor R -> tensor R -> result (tensor R) := binop Rdiv.

(** [a < b], elementwise with broadcasting *)
Definition t_lt : tensor R -> tensor R -> result (tensor bool) :=
  binop (fun x y => bool_decide (x < y)).

Definition row_max (r : list R) : R :=
  match r with
  | [] => 0
  | x :: r' => foldl Rmax x r'
  end.

Definition row_min (r : list R) : R :=
  match r with
  | [] => 0
  | x :: r' => foldl Rmin x r'
  end.

(** [t.max(axis=1).values]; torch refuses to reduce a dimension of size 0. *)
Definition t_max_axis1 (t : tensor R) : result (list R) :=
  if decide (ncols t = 0%nat) then Raise IndexError
  else Ok (row_max <$> rows t).

(** [t.min(axis=1).values] *)
Definition t_min_axis1 (t : tensor R) : result (list R) :=
  if decide (ncols t = 0%nat) then Raise IndexError
  else Ok (row_min <$> rows t).

(** [v[:, None]] *)
Definition unsqueeze1 (v : list R) : tensor R :=
  Tensor 1 ((fun x => [x]) <$> v).

(** *** Averaging functions *)

Definition compute_average_gvae (z_mean z_logvar z2_mean z2_logvar : tensor R)
  : result (tensor R * tensor R) :=
  let z_var := t_exp z_logvar in
  let z2_var := t_exp z2_logvar in
  s ← t_add z_var z2_var;
  let ave_var := tmap (fun x => x * 0.5) s in
  m ← t_add z_mean z2_mean;
  let ave_mean := tmap (fun x => x * 0.5) m in
  Ok (ave_mean, t_log ave_var).

Definition compute_average_ml_vae (z_mean z_logvar z2_mean z2_logvar : tensor R)
  : result (tensor R * tensor R) :=
  let z_var := t_exp z_logvar in
  let z2_var := t_exp z2_logvar in
  let z_invvar := t_reciprocal z_var in
  let z2_invvar := t_reciprocal z2_var in
  s ← t_add z_invvar z2_invvar;
  let ave_var := t_reciprocal s in
  p1 ← t_mul z_mean z_invvar;
  p2 ← t_mul z2_mean z2_invvar;
  p ← t_add p1 p2;
  ave_mean ← t_mul p ave_var;
  Ok (ave_mean, t_log ave_var).

(** *** KL deltas, threshold, mask *)

Definition kl_normal_loss_pair_elements
    (z_mean z_logvar z2_mean z2_logvar : tensor R) : result (tensor R) :=
  q ← t_div (t_exp z_logvar) (t_exp z2_logvar);
  d ← t_sub z2_mean z_mean;
  q2 ← t_div (t_pow d 2) (t_exp z2_logvar);
  s ← t_add q q2;
  let s1 := tmap (fun x => x - 1) s in
  z ← t_sub z_logvar z_logvar;
  s2 ← t_add s1 z;
  Ok (tmap (fun x => 0.5 * x) s2).

Definition estimate_kl_threshold (kl_deltas : tensor R) : result (tensor R) :=
  mx ← t_max_axis1 kl_deltas;
  mn ← t_min_axis1 kl_deltas;
  s ← binop1 Rplus mx mn;
  let threshs := (fun x => 0.5 * x) <$> s in
  Ok (unsqueeze1 threshs).

Definition estimate_unchanged (z_mean z_logvar z2_mean z2_logvar : tensor R)
  : result (tensor R * tensor R * tensor bool) :=
  kl_deltas ← kl_normal_loss_pair_elements z_mean z_logvar z2_mean z2_logvar;
  kl_threshs ← estimate_kl_threshold kl_deltas;
  unchanged_mask ← t_lt kl_deltas kl_threshs;
  Ok (kl_deltas, kl_threshs, unchanged_mask).

(** *** The spec's formulas, per element (written from the spec's words) *)

(** Spec section 4.2: [0.5 * (variance1/variance2 + (mean2-mean1)^2/variance2
    - 1 + (logvar2 - logvar1))]. *)
Definition kl_delta_spec (mean1 logvar1 mean2 logvar2 : R) : R :=
  0.5 * (exp logvar1 / exp logvar2
         + (mean2 - mean1) ^ 2 / exp logvar2 - 1 + (logvar2 - logvar1)).

(** The largest and the smallest entry of a row, as the spec means them. *)
Definition is_row_max (r : list R) (x : R) : Prop :=
  x ∈ r /\ forall y, y ∈ r -> y <= x.

Definition is_row_min (r : list R) (x : R) : Prop :=
  x ∈ r /\ forall y, y ∈ r -> x <= y.

(** What the source line computes at one element. *)
Definition kl_delta_code (mean1 logvar1 mean2 logvar2 : R) : R :=
  0.5 * (exp logvar1 / exp logvar2
         + (mean2 - mean1) ^ 2 / exp logvar2 - 1 + (logvar1 - logvar1)).
End real_ops.

(** ** Tensor references and the heap *)

Definition loc : Type := nat.

(** Every reference denotes a tensor. *)
Abbreviation heap := (loc -> tensor R) (only parsing).

(** Computations that read and write the heap and may raise. *)
Definition M (A : Type) : Type := heap -> result (A * heap).

#[global] Instance M_ret : MRet M := fun _ a h => Ok (a, h).
#[global] Instance M_bind : MBind M := fun _ _ f m h =>
  match m h with
  | Ok (a, h') => f a h'
  | Raise e => Raise e
  end.

Definition lift {A : Type} (r : result A) : M A := fun h =>
  match r with
  | Ok a => Ok (a, h)
  | Raise e => Raise e
  end.

Definition load (l : loc) : M (tensor R) := fun h => Ok (h l, h).

Definition store (l : loc) (t : tensor R) : M unit := fun h =>
  Ok (tt, <[l := t]> h).

(** [x[mask] = vals] on the tensor that [x] refers to. *)
Definition setitem_mask (x : loc) (mask : tensor bool) (vals : list R) : M unit :=
  t ← load x;
  t' ← lift (masked_assign t mask vals);
  store x t'.

(** ** [AdaVaeLoss] *)

Definition averaging_fn : Type :=
  tensor R -> tensor R -> tensor R -> tensor R -> result (tensor R * tensor R).

Module AdaVaeLoss.

Record self : Type := Self { beta : R; compute_average : averaging_fn }.

Definition AVERAGING_FUNCTIONS : gmap string averaging_fn :=
  <["ml-vae" := compute_average_ml_vae]>
    (<["gvae" := compute_average_gvae]> ∅).

(** Modelled from the spec: [BetaVaeLoss.__init__] (module
    [disent.frameworks.unsupervised.betavae]) is not among the sources.
    Spec section 6 names [average_mode] as the only configuration checked
    at construction, so the base initialiser records [beta] and cannot
    fail. *)
Definition BetaVaeLoss_init (beta : R) : result R := Ok beta.

Section init.
(** Python's [repr] on [str], and the order in which a [set] of strings is
    iterated when it is printed; both are builtins, neither is fixed by
    the repository. *)
Variable repr : string -> string.
Variable set_iter : gset string -> list string.

(** [repr] of a set of strings. *)
Definition repr_set (X : gset string) : string :=
  "{" +:+ String.concat ", " (repr <$> set_iter X) +:+ "}".

(** The f-string of line 96. *)
Definition unsupported_msg (average_mode : string) : string :=
  "Unsupported average_mode=" +:+ repr average_mode
    +:+ " must be one of: " +:+ repr_set (dom AVERAGING_FUNCTIONS).

Definition __init__ (beta : R) (average_mode : string) : result self :=
  b ← BetaVaeLoss_init beta;
  match AVERAGING_FUNCTIONS !! average_mode with
  | None => Raise (KeyError (unsupported_msg average_mode))
  | Some f => Ok (Self b f)
  end.
End init.

Definition required_observations (s : self) : nat := 2.

(** [intercept_z(self, z_mean, z_logvar, *args, **kwargs)].  The two
    assignment statements evaluate their right-hand sides first and then
    assign to the targets from left to right. *)
Definition intercept_z (s : self) (z_mean z_logvar : loc)
    (args : list loc) (kwargs : list (string * loc))
  : M (loc * loc * loc * loc) :=
  match args with
  | [z2_mean; z2_logvar] =>
      if decide (kwargs = []) then
        zm ← load z_mean;
        zl ← load z_logvar;
        z2m ← load z2_mean;
        z2l ← load z2_logvar;
        '(kl_deltas, kl_threshs, ave_mask) ← lift (estimate_unchanged zm zl z2m z2l);
        '(ave_mu, ave_logvar) ← lift (compute_average s zm zl z2m z2l);
        v1 ← lift (masked_select ave_mu ave_mask);
        v2 ← lift (masked_select ave_logvar ave_mask);
        _ ← setitem_mask z_mean ave_mask v1;
        _ ← setitem_mask z_logvar ave_mask v2;
        v3 ← lift (masked_select ave_mu ave_mask);
        v4 ← lift (masked_select ave_logvar ave_mask);
        _ ← setitem_mask z2_mean ave_mask v3;
        _ ← setitem_mask z2_logvar ave_mask v4;
        mret (z_mean, z_logvar, z2_mean, z2_logvar)
      else lift (Raise AssertionError)
  | _ => lift (Raise ValueError)
  end.

End AdaVaeLoss.

(** *** [AdaVaeLoss.compute_loss] *)

Section loss.
(** [bce_loss] and [kl_normal_loss] are imported from
    [disent.frameworks.unsupervised.vae], which is not among the sources:
    they are parameters here, each taking two values and returning a scalar
    or raising.  [V] is the type of the values [compute_loss] receives and
    passes on to them without looking inside. *)
Variable V : Type.
Variable bce_loss : V -> V -> result R.
Variable kl_normal_loss : V -> V -> result R.

(** [compute_loss(self, x, x_recon, z_mean, z_logvar, z_sampled, *args,
    **kwargs)]; the result is the returned dict. *)
Definition compute_loss (s : AdaVaeLoss.self)
    (x x_recon z_mean z_logvar z_sampled : V)
    (args : list V) (kwargs : list (string * V)) : result (gmap string R) :=
  match args with
  | [x2; x2_recon; z2_mean; z2_logvar; z2_sampled] =>
      recon_loss ← bce_loss x x_recon;
      recon2_loss ← bce_loss x2 x2_recon;
      kl_loss ← kl_normal_loss z_mean z_logvar;
      kl2_loss ← kl_normal_loss z2_mean z2_logvar;
      let loss :=
        ((recon_loss + recon2_loss)
         + AdaVaeLoss.beta s * (kl_loss + kl2_loss))%R in
      let loss := (loss / 2)%R in
      Ok {["loss" := loss]}
  | _ => Raise ValueError
  end.
End loss.

(** The heap after the four masked assignments of [intercept_z], each
    written as a [where]. *)
Definition after_assignments (mask : tensor bool) (mu lv : tensor R)
    (z_mean z_logvar z2_mean z2_logvar : loc) (h : heap) : heap :=
  let h1 := <[z_mean := twhere mask mu (h z_mean)]> h in
  let h2 := <[z_logvar := twhere mask lv (h1 z_logvar)]> h1 in
  let h3 := <[z2_mean := twhere mask mu (h2 z2_mean)]> h2 in
  <[z2_logvar := twhere mask lv (h3 z2_logvar)]> h3.

(** [sub] occurs in [s]. *)
Definition mentions (s sub : string) : Prop :=
  exists pre post, s = pre +:+ sub +:+ post.

(** The computation does not end in a [KeyError]. *)
Definition no_key_error {A : Type} (r : result A) : Prop :=
  forall msg, r <> Raise (KeyError msg).

(** Python's [repr] on a string without quotes, backslashes or
    non-printable characters: the string between single quotes. *)
Definition quoted (s : string) : string := "'" +:+ s +:+ "'".

(** The pair of section 8 of the specification, as a heap: reference 2
    holds mean2 = [[0, 5]]; every other reference holds [[0, 0]]. *)
Definition scenario_heap : heap := fun l =>
  match l with
  | 2 => Tensor 2 [[0; 5]]%R
  | _ => Tensor 2 [[0; 0]]%R
  end.

(** A heap in which one tensor, reference 0, serves as both mean and
    logvar of the first posterior; reference 2 holds mean2 = [[1, 5]]. *)
Definition aliased_heap : heap := fun l =>
  match l with
  | 2 => Tensor 2 [[1; 5]]%R
  | _ => Tensor 2 [[0; 0]]%R
  end.

(** * Facts about tensors *)

Section tensor_facts.
Context {A B C : Type}.
Implicit Types (i j n d : nat).

Lemma elem_tmap (f : A -> B) (t : tensor A) i j :
  elem (tmap f t) i j = f <$> elem t i j.
Proof.
  unfold elem, tmap; simpl. rewrite list_lookup_fmap.
  destruct (rows t !! i) as [r|]; simpl; [apply list_lookup_fmap | done].
Qed.

Lemma has_shape_tmap (f : A -> B) (t : tensor A) n d :
  has_shape t n d -> has_shape (tmap f t) n d.
Proof.
  intros (Hn & Hd & Hwf). unfold has_shape, nrows, wf, tmap in *; simpl.
  rewrite length_fmap. split_and!; [done..|].
  apply Forall_fmap. eapply Forall_impl; [exact Hwf|].
  intros r Hr; simpl. by rewrite length_fmap.
Qed.

Lemma stretch_id {X : Type} (l : list X) k : length l = k -> stretch k l = l.
Proof. destruct l as [|x [|y l]]; simpl; intros <-; done. Qed.

Lemma zip_rows_stretch (f : A -> B -> C) (la : list (list A)) (lb : list (list B)) d :
  Forall (fun r => length r = d) la ->
  Forall (fun r => length r = d) lb ->
  zip_with (fun ra rb => zip_with f (stretch d ra) (stretch d rb)) la lb
  = zip_with (zip_with f) la lb.
Proof.
  intros Ha. revert lb. induction Ha as [|ra la Hra Ha IH]; intros lb Hb; [done|].
  destruct Hb as [|rb lb Hrb Hb]; [done|]. simpl.
  rewrite !stretch_id by done. f_equal. by apply IH.
Qed.

Lemma bcast_dim_same n : bcast_dim n n = Some n.
Proof. unfold bcast_dim. by rewrite decide_True. Qed.

(** On operands of one shape, a binary operation is the pointwise one. *)
Lemma binop_same_shape (f : A -> B -> C) (a : tensor A) (b : tensor B) n d :
  has_shape a n d -> has_shape b n d -> binop f a b = Ok (tzip f a b).
Proof.
  intros (Han & Had & Hawf) (Hbn & Hbd & Hbwf). unfold binop, tzip.
  rewrite Han, Hbn, Had, Hbd, !bcast_dim_same.
  unfold nrows in *. rewrite !stretch_id by done.
  unfold wf in *. rewrite Had in Hawf. rewrite Hbd in Hbwf.
  by rewrite zip_rows_stretch.
Qed.

Lemma elem_tzip (f : A -> B -> C) (a : tensor A) (b : tensor B) i j :
  elem (tzip f a b) i j =
  match elem a i j, elem b i j with
  | Some x, Some y => Some (f x y)
  | _, _ => None
  end.
Proof.
  unfold elem, tzip; simpl. rewrite lookup_zip_with.
  destruct (rows a !! i) as [ra|]; simpl; [|done].
  destruct (rows b !! i) as [rb|]; simpl; [|by destruct (ra !! j)].
  rewrite lookup_zip_with.
  destruct (ra !! j); simpl; [|done]. by destruct (rb !! j).
Qed.

Lemma has_shape_tzip (f : A -> B -> C) (a : tensor A) (b : tensor B) n d :
  has_shape a n d -> has_shape b n d -> has_shape (tzip f a b) n d.
Proof.
  intros (Han & Had & Hawf) (Hbn & Hbd & Hbwf).
  unfold has_shape, nrows, wf, tzip in *; simpl.
  rewrite length_zip_with. split_and!; [lia | done |].
  rewrite Had in *. rewrite Hbd in Hbwf. clear Han Hbn.
  revert Hbwf. generalize (rows b).
  induction Hawf as [|ra la Hra Ha IH]; intros lb Hb; [constructor|].
  destruct Hb as [|rb lb Hrb Hb]; simpl; constructor; [|by apply IH].
  rewrite length_zip_with. lia.
Qed.

Lemma elem_is_Some (t : tensor A) n d i j :
  has_shape t n d -> i < n -> j < d -> is_Some (elem t i j).
Proof.
  intros (Hn & Hd & Hwf) Hi Hj. unfold elem, nrows in *.
  destruct (lookup_lt_is_Some_2 (rows t) i) as [r Hr]; [lia|].
  rewrite Hr. apply lookup_lt_is_Some_2.
  rewrite (Forall_lookup_1 _ _ _ _ Hwf Hr). lia.
Qed.

Lemma elem_Some_lt (t : tensor A) n d i j x :
  has_shape t n d -> elem t i j = Some x -> i < n /\ j < d.
Proof.
  intros (Hn & Hd & Hwf). unfold elem, nrows in *.
  destruct (rows t !! i) as [r|] eqn:Hr; [|done]. intros Hx.
  split.
  - rewrite <- Hn. by eapply lookup_lt_Some.
  - rewrite <- Hd, <- (Forall_lookup_1 _ _ _ _ Hwf Hr). by eapply lookup_lt_Some.
Qed.

(** Tensors of one shape with the same entries are equal. *)
Lemma tensor_ext (a b : tensor A) n d :
  has_shape a n d -> has_shape b n d ->
  (forall i j, i < n -> j < d -> elem a i j = elem b i j) -> a = b.
Proof.
  intros (Han & Had & Hawf) (Hbn & Hbd & Hbwf) Hel.
  destruct a as [ca ra], b as [cb rb]; unfold nrows, wf, elem in *; simpl in *.
  subst ca cb. f_equal. apply list_eq. intros i.
  destruct (decide (i < n)) as [Hi|Hi].
  - destruct (lookup_lt_is_Some_2 ra i) as [xa Hxa]; [lia|].
    destruct (lookup_lt_is_Some_2 rb i) as [xb Hxb]; [lia|].
    rewrite Hxa, Hxb. f_equal. apply list_eq. intros j.
    pose proof (Forall_lookup_1 _ _ _ _ Hawf Hxa) as La.
    pose proof (Forall_lookup_1 _ _ _ _ Hbwf Hxb) as Lb. simpl in *.
    destruct (decide (j < d)) as [Hj|Hj].
    + specialize (Hel i j Hi Hj). by rewrite Hxa, Hxb in Hel.
    + rewrite !lookup_ge_None_2; [done | lia..].
  - rewrite !lookup_ge_None_2; [done | lia..].
Qed.
End tensor_facts.

(** * Masked selection followed by masked assignment *)

Section mask_facts.
Context {A : Type}.
Implicit Types (i j n d : nat) (m : list bool).

Lemma twhere_unfold (mask : tensor bool) (a t : tensor A) :
  twhere mask a t = tzip pick mask (tzip pair a t).
Proof. done. Qed.

Lemma length_select_row (a : list A) m :
  length a = length m ->
  length (select_row a m) = length (filter (fun b => b = true) m).
Proof.
  revert m. induction a as [|x a IH]; intros [|b m] Hlen; simplify_eq/=; [done|].
  destruct b; simpl.
  - f_equal. by apply IH.
  - rewrite filter_cons_False by done. by apply IH.
Qed.

Lemma length_select (la : list (list A)) (lm : list (list bool)) d :
  length la = length lm ->
  Forall (fun r => length r = d) la ->
  Forall (fun r => length r = d) lm ->
  length (concat (zip_with select_row la lm))
  = length (filter (fun b => b = true) (concat lm)).
Proof.
  intros Hlen Ha. revert lm Hlen.
  induction Ha as [|a la Hla Ha IH]; intros [|m lm] Hlen Hm; simplify_eq/=; [done|].
  inversion Hm as [|? ? Hlm Hm']; subst.
  rewrite filter_app, !length_app. f_equal; [|by apply IH].
  apply length_select_row. congruence.
Qed.

Lemma scatter_row_select (r a : list A) m (rest : list A) :
  length r = length m -> length a = length m ->
  scatter_row r m (select_row a m ++ rest)
  = (zip_with pick m (zip_with pair a r), rest).
Proof.
  revert a m. induction r as [|x r IH]; intros [|y a] [|b m] Hr Ha;
    simplify_eq/=; [done|].
  destruct b; simpl; by rewrite IH.
Qed.

Lemma scatter_select (lr la : list (list A)) (lm : list (list bool)) d :
  length lr = length lm -> length la = length lm ->
  Forall (fun r => length r = d) lr ->
  Forall (fun r => length r = d) la ->
  Forall (fun r => length r = d) lm ->
  scatter lr lm (concat (zip_with select_row la lm))
  = zip_with (zip_with pick) lm (zip_with (zip_with pair) la lr).
Proof.
  intros Hr Ha Hlr. revert la lm Hr Ha.
  induction Hlr as [|r lr Hlen Hlr IH]; intros [|a la] [|m lm] Hr Ha Hla Hlm;
    simplify_eq/=; [done|].
  inversion Hla; inversion Hlm; subst.
  rewrite scatter_row_select by congruence. f_equal. by apply IH.
Qed.

(** [t[mask] = a[mask]] is [where(mask, a, t)] on tensors of one shape. *)
Lemma select_then_assign (t a : tensor A) (mask : tensor bool) n d :
  has_shape t n d -> has_shape a n d -> has_shape mask n d ->
  exists vs, masked_select a mask = Ok vs
             /\ masked_assign t mask vs = Ok (twhere mask a t).
Proof.
  intros (Htn & Htd & Htwf) (Han & Had & Hawf) (Hmn & Hmd & Hmwf).
  unfold masked_select, masked_assign, shape.
  eexists; split; [by rewrite decide_True by congruence|].
  rewrite (decide_True (P := _ = (nrows t, ncols t))) by congruence.
  unfold nrows, wf, count_true in *.
  rewrite Htd in Htwf. rewrite Had in Hawf. rewrite Hmd in Hmwf.
  rewrite decide_True by (apply (length_select _ _ d); [congruence | done..]).
  unfold twhere, tzip; simpl. do 2 f_equal; [congruence|].
  apply (scatter_select _ _ _ d); [congruence.. | done | done | done].
Qed.

Lemma has_shape_twhere (mask : tensor bool) (a t : tensor A) n d :
  has_shape mask n d -> has_shape a n d -> has_shape t n d ->
  has_shape (twhere mask a t) n d.
Proof.
  intros Hm Ha Ht. rewrite twhere_unfold.
  apply has_shape_tzip; [done|]. by apply has_shape_tzip.
Qed.

Lemma elem_twhere (mask : tensor bool) (a t : tensor A) i j :
  elem (twhere mask a t) i j =
  match elem mask i j, elem a i j, elem t i j with
  | Some b, Some x, Some y => Some (if b then x else y)
  | _, _, _ => None
  end.
Proof.
  rewrite twhere_unfold, !elem_tzip.
  destruct (elem mask i j), (elem a i j), (elem t i j); done.
Qed.

Lemma elem_twhere_true (mask : tensor bool) (a t : tensor A) n d i j :
  has_shape mask n d -> has_shape a n d -> has_shape t n d ->
  elem mask i j = Some true -> elem (twhere mask a t) i j = elem a i j.
Proof.
  intros Hm Ha Ht Hb. rewrite elem_twhere, Hb.
  destruct (elem_Some_lt _ _ _ _ _ _ Hm Hb) as [Hi Hj].
  destruct (elem_is_Some a n d i j Ha Hi Hj) as [x ->].
  by destruct (elem_is_Some t n d i j Ht Hi Hj) as [y ->].
Qed.

Lemma elem_twhere_false (mask : tensor bool) (a t : tensor A) n d i j :
  has_shape mask n d -> has_shape a n d -> has_shape t n d ->
  elem mask i j = Some false -> elem (twhere mask a t) i j = elem t i j.
Proof.
  intros Hm Ha Ht Hb. rewrite elem_twhere, Hb.
  destruct (elem_Some_lt _ _ _ _ _ _ Hm Hb) as [Hi Hj].
  destruct (elem_is_Some a n d i j Ha Hi Hj) as [x ->].
  by destruct (elem_is_Some t n d i j Ht Hi Hj) as [y ->].
Qed.

(** Overwriting twice with the same mask and values is overwriting once. *)
Lemma twhere_idemp (mask : tensor bool) (a t : tensor A) n d :
  has_shape mask n d -> has_shape a n d -> has_shape t n d ->
  twhere mask a (twhere mask a t) = twhere mask a t.
Proof.
  intros Hm Ha Ht.
  pose proof (has_shape_twhere _ _ _ _ _ Hm Ha Ht) as Hw.
  apply (tensor_ext _ _ n d); [by apply has_shape_twhere | done |].
  intros i j Hi Hj. rewrite !elem_twhere.
  destruct (elem mask i j) as [[]|], (elem a i j), (elem t i j); done.
Qed.
End mask_facts.

(** * The numeric functions on operands of one shape *)

Ltac shapes :=
  repeat first
    [ assumption
    | apply has_shape_tmap
    | apply has_shape_tzip
    | apply has_shape_twhere ].

Ltac same_shape n d :=
  unfold t_add, t_sub, t_mul, t_div, t_exp, t_log, t_reciprocal, t_pow;
  repeat (rewrite (binop_same_shape _ _ _ n d) by shapes;
          cbn [mbind result_bind]).

Ltac elems :=
  repeat first
    [ rewrite elem_tmap
    | rewrite elem_tzip
    | match goal with
      | H : elem _ _ _ = Some _ |- _ => rewrite H
      end ];
  cbn [fmap option_fmap option_map].

Ltac concrete_shape := split_and!; [reflexivity | reflexivity | repeat constructor].

Section numeric_facts.
Local Open Scope R_scope.
Implicit Types (i j n d : nat).
Implicit Types (z_mean z_logvar z2_mean z2_logvar kl_deltas : tensor R).

Lemma compute_average_gvae_same z_mean z_logvar z2_mean z2_logvar n d :
  has_shape z_mean n d -> has_shape z_logvar n d ->
  has_shape z2_mean n d -> has_shape z2_logvar n d ->
  compute_average_gvae z_mean z_logvar z2_mean z2_logvar
  = Ok (tmap (fun x => x * 0.5) (tzip Rplus z_mean z2_mean),
        tmap ln (tmap (fun x => x * 0.5)
                   (tzip Rplus (tmap exp z_logvar) (tmap exp z2_logvar)))).
Proof.
  intros H1 H2 H3 H4. unfold compute_average_gvae. same_shape n d. done.
Qed.

Lemma compute_average_ml_vae_same z_mean z_logvar z2_mean z2_logvar n d :
  has_shape z_mean n d -> has_shape z_logvar n d ->
  has_shape z2_mean n d -> has_shape z2_logvar n d ->
  compute_average_ml_vae z_mean z_logvar z2_mean z2_logvar
  = let ave_var :=
      tmap Rinv (tzip Rplus (tmap Rinv (tmap exp z_logvar))
                   (tmap Rinv (tmap exp z2_logvar))) in
    Ok (tzip Rmult
          (tzip Rplus (tzip Rmult z_mean (tmap Rinv (tmap exp z_logvar)))
             (tzip Rmult z2_mean (tmap Rinv (tmap exp z2_logvar))))
          ave_var,
        tmap ln ave_var).
Proof.
  intros H1 H2 H3 H4. unfold compute_average_ml_vae. same_shape n d. done.
Qed.

Lemma kl_normal_loss_pair_elements_same z_mean z_logvar z2_mean z2_logvar n d :
  has_shape z_mean n d -> has_shape z_logvar n d ->
  has_shape z2_mean n d -> has_shape z2_logvar n d ->
  kl_normal_loss_pair_elements z_mean z_logvar z2_mean z2_logvar
  = Ok (tmap (fun x => 0.5 * x)
          (tzip Rplus
             (tmap (fun x => x - 1)
                (tzip Rplus
                   (tzip Rdiv (tmap exp z_logvar) (tmap exp z2_logvar))
                   (tzip Rdiv (tmap (fun x => x ^ 2) (tzip Rminus z2_mean z_mean))
                      (tmap exp z2_logvar))))
             (tzip Rminus z_logvar z_logvar))).
Proof.
  intros H1 H2 H3 H4. unfold kl_normal_loss_pair_elements. same_shape n d. done.
Qed.

(** What [compute_average_gvae] holds at one position. *)
Lemma compute_average_gvae_elem z_mean z_logvar z2_mean z2_logvar n d :
  has_shape z_mean n d -> has_shape z_logvar n d ->
  has_shape z2_mean n d -> has_shape z2_logvar n d ->
  exists ave_mean ave_logvar,
    compute_average_gvae z_mean z_logvar z2_mean z2_logvar
      = Ok (ave_mean, ave_logvar)
    /\ has_shape ave_mean n d /\ has_shape ave_logvar n d
    /\ forall i j m1 l1 m2 l2,
        elem z_mean i j = Some m1 -> elem z_logvar i j = Some l1 ->
        elem z2_mean i j = Some m2 -> elem z2_logvar i j = Some l2 ->
        elem ave_mean i j = Some ((m1 + m2) * 0.5)
        /\ elem ave_logvar i j = Some (ln ((exp l1 + exp l2) * 0.5)).
Proof.
  intros H1 H2 H3 H4.
  rewrite (compute_average_gvae_same _ _ _ _ n d) by done.
  eexists _, _. split; [done|]. split_and!; [shapes..|].
  intros i j m1 l1 m2 l2 E1 E2 E3 E4. split; elems; reflexivity.
Qed.

(** What [compute_average_ml_vae] holds at one position. *)
Lemma compute_average_ml_vae_elem z_mean z_logvar z2_mean z2_logvar n d :
  has_shape z_mean n d -> has_shape z_logvar n d ->
  has_shape z2_mean n d -> has_shape z2_logvar n d ->
  exists ave_mean ave_logvar,
    compute_average_ml_vae z_mean z_logvar z2_mean z2_logvar
      = Ok (ave_mean, ave_logvar)
    /\ has_shape ave_mean n d /\ has_shape ave_logvar n d
    /\ forall i j m1 l1 m2 l2,
        elem z_mean i j = Some m1 -> elem z_logvar i j = Some l1 ->
        elem z2_mean i j = Some m2 -> elem z2_logvar i j = Some l2 ->
        elem ave_mean i j
          = Some ((m1 * / exp l1 + m2 * / exp l2) * / (/ exp l1 + / exp l2))
        /\ elem ave_logvar i j = Some (ln (/ (/ exp l1 + / exp l2))).
Proof.
  intros H1 H2 H3 H4.
  rewrite (compute_average_ml_vae_same _ _ _ _ n d) by done. cbv zeta.
  eexists _, _. split; [done|]. split_and!; [shapes..|].
  intros i j m1 l1 m2 l2 E1 E2 E3 E4. split; elems; reflexivity.
Qed.

(** What [kl_normal_loss_pair_elements] holds at one position. *)
Lemma kl_normal_loss_pair_elements_elem z_mean z_logvar z2_mean z2_logvar n d :
  has_shape z_mean n d -> has_shape z_logvar n d ->
  has_shape z2_mean n d -> has_shape z2_logvar n d ->
  exists kl_deltas,
    kl_normal_loss_pair_elements z_mean z_logvar z2_mean z2_logvar = Ok kl_deltas
    /\ has_shape kl_deltas n d
    /\ forall i j m1 l1 m2 l2,
        elem z_mean i j = Some m1 -> elem z_logvar i j = Some l1 ->
        elem z2_mean i j = Some m2 -> elem z2_logvar i j = Some l2 ->
        elem kl_deltas i j = Some (kl_delta_code m1 l1 m2 l2).
Proof.
  intros H1 H2 H3 H4.
  rewrite (kl_normal_loss_pair_elements_same _ _ _ _ n d) by done.
  eexists. split; [done|]. split; [shapes|].
  intros i j m1 l1 m2 l2 E1 E2 E3 E4. elems. reflexivity.
Qed.

(** ** Real-number facts about the per-element formulas *)

Lemma kl_delta_code_simpl m1 l1 m2 l2 :
  kl_delta_code m1 l1 m2 l2
  = 0.5 * (exp l1 / exp l2 + (m2 - m1) ^ 2 / exp l2 - 1).
Proof. unfold kl_delta_code. lra. Qed.

Lemma kl_delta_code_vs_spec m1 l1 m2 l2 :
  kl_delta_spec m1 l1 m2 l2 - kl_delta_code m1 l1 m2 l2 = 0.5 * (l2 - l1).
Proof. unfold kl_delta_code, kl_delta_spec. lra. Qed.

Lemma kl_delta_code_same m l : kl_delta_code m l m l = 0.
Proof.
  rewrite kl_delta_code_simpl. pose proof (exp_pos l). field. lra.
Qed.

Lemma kl_delta_code_neg m l1 l2 : l1 < l2 -> kl_delta_code m l1 m l2 < 0.
Proof.
  intros Hl. rewrite kl_delta_code_simpl.
  pose proof (exp_pos l1). pose proof (exp_pos l2).
  pose proof (exp_increasing _ _ Hl).
  replace ((m - m) ^ 2 / exp l2) with 0 by (field; lra).
  assert (Hq : exp l1 * / exp l2 < exp l2 * / exp l2).
  { apply Rmult_lt_compat_r; [by apply Rinv_0_lt_compat | done]. }
  rewrite Rinv_r in Hq by lra. unfold Rdiv. lra.
Qed.

(** The formula of the specification is a KL divergence and is never
    negative; negative deltas come from the missing logvar term. *)
Lemma kl_delta_spec_nonneg m1 l1 m2 l2 : 0 <= kl_delta_spec m1 l1 m2 l2.
Proof.
  unfold kl_delta_spec.
  pose proof (exp_pos l2) as P2.
  assert (Hq : exp l1 / exp l2 = exp (l1 - l2)).
  { unfold Rminus, Rdiv. by rewrite exp_plus, exp_Ropp. }
  pose proof (exp_ineq1_le (l1 - l2)) as Hexp.
  assert (Hsq : 0 <= (m2 - m1) ^ 2 / exp l2).
  { apply Rmult_le_pos; [apply pow2_ge_0 | by apply Rlt_le, Rinv_0_lt_compat]. }
  rewrite Hq. lra.
Qed.

(** The code's delta is symmetric exactly when the two logvars agree. *)
Lemma kl_delta_code_swap_iff m1 l1 m2 l2 :
  kl_delta_code m1 l1 m2 l2 = kl_delta_code m2 l2 m1 l1 <-> l1 = l2.
Proof.
  rewrite !kl_delta_code_simpl.
  pose proof (exp_pos l1) as P1. pose proof (exp_pos l2) as P2.
  split.
  - intros Heq.
    assert (Hv : exp l1 = exp l2).
    { assert (E : (exp l1 - exp l2) * (exp l1 + exp l2 + (m2 - m1) ^ 2) = 0).
      { assert (E' : exp l1 / exp l2 + (m2 - m1) ^ 2 / exp l2
                     = exp l2 / exp l1 + (m1 - m2) ^ 2 / exp l1) by lra.
        apply (Rmult_eq_compat_l (exp l1 * exp l2)) in E'.
        field_simplify in E'; [|lra..]. nra. }
      apply Rmult_integral in E. destruct E as [E|E]; [lra|].
      pose proof (pow2_ge_0 (m2 - m1)). lra. }
    by apply exp_inv.
  - intros ->. by replace ((m2 - m1) ^ 2) with ((m1 - m2) ^ 2) by ring.
Qed.

Lemma four_elems z_mean z_logvar z2_mean z2_logvar n d i j :
  has_shape z_mean n d -> has_shape z_logvar n d ->
  has_shape z2_mean n d -> has_shape z2_logvar n d ->
  (i < n)%nat -> (j < d)%nat ->
  exists m1 l1 m2 l2,
    elem z_mean i j = Some m1 /\ elem z_logvar i j = Some l1 /\
    elem z2_mean i j = Some m2 /\ elem z2_logvar i j = Some l2.
Proof.
  intros H1 H2 H3 H4 Hi Hj.
  destruct (elem_is_Some _ _ _ _ _ H1 Hi Hj) as [m1 ?].
  destruct (elem_is_Some _ _ _ _ _ H2 Hi Hj) as [l1 ?].
  destruct (elem_is_Some _ _ _ _ _ H3 Hi Hj) as [m2 ?].
  destruct (elem_is_Some _ _ _ _ _ H4 Hi Hj) as [l2 ?].
  by exists m1, l1, m2, l2.
Qed.

(** ** Claims about the averaging functions *)

(** C3: on two posteriors of one shape, [compute_average_gvae] returns at
    every position the mean [(mean1 + mean2) / 2] and a logvar whose
    exponential is the arithmetic mean [(variance1 + variance2) / 2] of the
    input variances [variance_i = exp logvar_i]. *)
Theorem compute_average_gvae_arithmetic_mean
    z_mean z_logvar z2_mean z2_logvar n d :
  has_shape z_mean n d -> has_shape z_logvar n d ->
  has_shape z2_mean n d -> has_shape z2_logvar n d ->
  exists ave_mean ave_logvar,
    compute_average_gvae z_mean z_logvar z2_mean z2_logvar
      = Ok (ave_mean, ave_logvar)
    /\ has_shape ave_mean n d /\ has_shape ave_logvar n d
    /\ forall i j, (i < n)%nat -> (j < d)%nat ->
        exists m1 l1 m2 l2 m l,
          elem z_mean i j = Some m1 /\ elem z_logvar i j = Some l1 /\
          elem z2_mean i j = Some m2 /\ elem z2_logvar i j = Some l2 /\
          elem ave_mean i j = Some m /\ elem ave_logvar i j = Some l /\
          m = (m1 + m2) / 2 /\
          exp l = (exp l1 + exp l2) / 2.
Proof.
  intros H1 H2 H3 H4.
  destruct (compute_average_gvae_elem _ _ _ _ n d H1 H2 H3 H4)
    as (am & al & Heq & Sm & Sl & Hel).
  exists am, al. split_and!; [done..|].
  intros i j Hi Hj.
  destruct (four_elems _ _ _ _ n d i j H1 H2 H3 H4 Hi Hj)
    as (m1 & l1 & m2 & l2 & E1 & E2 & E3 & E4).
  destruct (Hel i j m1 l1 m2 l2 E1 E2 E3 E4) as [Em El].
  exists m1, l1, m2, l2. eexists _, _. split_and!; [done..| lra |].
  pose proof (exp_pos l1). pose proof (exp_pos l2).
  rewrite exp_ln by lra. lra.
Qed.

Lemma compute_average_gvae_arithmetic_mean_witness :
  exists ave_mean ave_logvar,
    compute_average_gvae (Tensor 2 [[0; 0]]) (Tensor 2 [[0; 0]])
      (Tensor 2 [[0; 5]]) (Tensor 2 [[0; 0]]) = Ok (ave_mean, ave_logvar)
    /\ has_shape ave_mean 1 2 /\ has_shape ave_logvar 1 2
    /\ forall i j, (i < 1)%nat -> (j < 2)%nat ->
        exists m1 l1 m2 l2 m l,
          elem (Tensor 2 [[0; 0]]) i j = Some m1 /\
          elem (Tensor 2 [[0; 0]]) i j = Some l1 /\
          elem (Tensor 2 [[0; 5]]) i j = Some m2 /\
          elem (Tensor 2 [[0; 0]]) i j = Some l2 /\
          elem ave_mean i j = Some m /\ elem ave_logvar i j = Some l /\
          m = (m1 + m2) / 2 /\
          exp l = (exp l1 + exp l2) / 2.
Proof.
  apply (compute_average_gvae_arithmetic_mean
           (Tensor 2 [[0; 0]]) (Tensor 2 [[0; 0]])
           (Tensor 2 [[0; 5]]) (Tensor 2 [[0; 0]]) 1 2); concrete_shape.
Defined.

(** C4: on two posteriors of one shape, [compute_average_ml_vae] returns at
    every position a logvar whose exponential is
    [1 / (1/variance1 + 1/variance2)] and the mean
    [(mean1 * (1/variance1) + mean2 * (1/variance2)) * avg_variance]. *)
Theorem compute_average_ml_vae_product
    z_mean z_logvar z2_mean z2_logvar n d :
  has_shape z_mean n d -> has_shape z_logvar n d ->
  has_shape z2_mean n d -> has_shape z2_logvar n d ->
  exists ave_mean ave_logvar,
    compute_average_ml_vae z_mean z_logvar z2_mean z2_logvar
      = Ok (ave_mean, ave_logvar)
    /\ has_shape ave_mean n d /\ has_shape ave_logvar n d
    /\ forall i j, (i < n)%nat -> (j < d)%nat ->
        exists m1 l1 m2 l2 m l,
          elem z_mean i j = Some m1 /\ elem z_logvar i j = Some l1 /\
          elem z2_mean i j = Some m2 /\ elem z2_logvar i j = Some l2 /\
          elem ave_mean i j = Some m /\ elem ave_logvar i j = Some l /\
          exp l = 1 / (1 / exp l1 + 1 / exp l2) /\
          m = (m1 * (1 / exp l1) + m2 * (1 / exp l2)) * exp l.
Proof.
  intros H1 H2 H3 H4.
  destruct (compute_average_ml_vae_elem _ _ _ _ n d H1 H2 H3 H4)
    as (am & al & Heq & Sm & Sl & Hel).
  exists am, al. split_and!; [done..|].
  intros i j Hi Hj.
  destruct (four_elems _ _ _ _ n d i j H1 H2 H3 H4 Hi Hj)
    as (m1 & l1 & m2 & l2 & E1 & E2 & E3 & E4).
  destruct (Hel i j m1 l1 m2 l2 E1 E2 E3 E4) as [Em El].
  exists m1, l1, m2, l2. eexists _, _. split_and!; [done..| |].
  - rewrite exp_ln; [by rewrite !Rdiv_1_l|].
    apply Rinv_0_lt_compat.
    pose proof (Rinv_0_lt_compat _ (exp_pos l1)).
    pose proof (Rinv_0_lt_compat _ (exp_pos l2)). lra.
  - rewrite exp_ln; [by rewrite !Rdiv_1_l|].
    apply Rinv_0_lt_compat.
    pose proof (Rinv_0_lt_compat _ (exp_pos l1)).
    pose proof (Rinv_0_lt_compat _ (exp_pos l2)). lra.
Qed.

Lemma compute_average_ml_vae_product_witness :
  exists ave_mean ave_logvar,
    compute_average_ml_vae (Tensor 2 [[0; 0]]) (Tensor 2 [[0; 0]])
      (Tensor 2 [[0; 5]]) (Tensor 2 [[0; 1]]) = Ok (ave_mean, ave_logvar)
    /\ has_shape ave_mean 1 2 /\ has_shape ave_logvar 1 2
    /\ forall i j, (i < 1)%nat -> (j < 2)%nat ->
        exists m1 l1 m2 l2 m l,
          elem (Tensor 2 [[0; 0]]) i j = Some m1 /\
          elem (Tensor 2 [[0; 0]]) i j = Some l1 /\
          elem (Tensor 2 [[0; 5]]) i j = Some m2 /\
          elem (Tensor 2 [[0; 1]]) i j = Some l2 /\
          elem ave_mean i j = Some m /\ elem ave_logvar i j = Some l /\
          exp l = 1 / (1 / exp l1 + 1 / exp l2) /\
          m = (m1 * (1 / exp l1) + m2 * (1 / exp l2)) * exp l.
Proof.
  apply (compute_average_ml_vae_product
           (Tensor 2 [[0; 0]]) (Tensor 2 [[0; 0]])
           (Tensor 2 [[0; 5]]) (Tensor 2 [[0; 1]]) 1 2); concrete_shape.
Defined.

Lemma precision_sum_le_min (v1 v2 : R) :
  0 < v1 -> 0 < v2 -> / (/ v1 + / v2) <= Rmin v1 v2.
Proof.
  intros P1 P2.
  pose proof (Rinv_0_lt_compat _ P1) as Q1.
  pose proof (Rinv_0_lt_compat _ P2) as Q2.
  apply Rmin_glb.
  - rewrite <- (Rinv_inv v1) at 2. apply Rinv_le_contravar; lra.
  - rewrite <- (Rinv_inv v2) at 2. apply Rinv_le_contravar; lra.
Qed.

(** C5: the variance returned by [compute_average_ml_vae] (the exponential
    of its logvar) is at every position at most the smaller of the two
    input variances. *)
Theorem compute_average_ml_vae_variance_le_min
    z_mean z_logvar z2_mean z2_logvar n d :
  has_shape z_mean n d -> has_shape z_logvar n d ->
  has_shape z2_mean n d -> has_shape z2_logvar n d ->
  exists ave_mean ave_logvar,
    compute_average_ml_vae z_mean z_logvar z2_mean z2_logvar
      = Ok (ave_mean, ave_logvar)
    /\ forall i j, (i < n)%nat -> (j < d)%nat ->
        exists l1 l2 l,
          elem z_logvar i j = Some l1 /\ elem z2_logvar i j = Some l2 /\
          elem ave_logvar i j = Some l /\
          exp l <= Rmin (exp l1) (exp l2).
Proof.
  intros H1 H2 H3 H4.
  destruct (compute_average_ml_vae_elem _ _ _ _ n d H1 H2 H3 H4)
    as (am & al & Heq & Sm & Sl & Hel).
  exists am, al. split; [done|].
  intros i j Hi Hj.
  destruct (four_elems _ _ _ _ n d i j H1 H2 H3 H4 Hi Hj)
    as (m1 & l1 & m2 & l2 & E1 & E2 & E3 & E4).
  destruct (Hel i j m1 l1 m2 l2 E1 E2 E3 E4) as [Em El].
  exists l1, l2. eexists. split_and!; [done..|].
  pose proof (exp_pos l1) as P1. pose proof (exp_pos l2) as P2.
  pose proof (Rinv_0_lt_compat _ P1). pose proof (Rinv_0_lt_compat _ P2).
  rewrite exp_ln by (apply Rinv_0_lt_compat; lra).
  by apply precision_sum_le_min.
Qed.

Lemma compute_average_ml_vae_variance_le_min_witness :
  exists ave_mean ave_logvar,
    compute_average_ml_vae (Tensor 2 [[0; 0]]) (Tensor 2 [[0; -1]])
      (Tensor 2 [[0; 5]]) (Tensor 2 [[0; 1]]) = Ok (ave_mean, ave_logvar)
    /\ forall i j, (i < 1)%nat -> (j < 2)%nat ->
        exists l1 l2 l,
          elem (Tensor 2 [[0; -1]]) i j = Some l1 /\
          elem (Tensor 2 [[0; 1]]) i j = Some l2 /\
          elem ave_logvar i j = Some l /\
          exp l <= Rmin (exp l1) (exp l2).
Proof.
  apply (compute_average_ml_vae_variance_le_min
           (Tensor 2 [[0; 0]]) (Tensor 2 [[0; -1]])
           (Tensor 2 [[0; 5]]) (Tensor 2 [[0; 1]]) 1 2); concrete_shape.
Defined.

(** ** Claims about the KL deltas *)

(** C1: at the input mean1 = [[0]], logvar1 = [[0]], mean2 = [[0]],
    logvar2 = [[1]] the code returns [0.5 * (1 / e - 1)], while the
    formula of the specification, whose last term is [logvar2 - logvar1],
    gives [0.5 * (1 / e)]: the code's last term is [z_logvar - z_logvar],
    which is zero. *)
Theorem kl_normal_loss_pair_elements_drops_logvar_term :
  exists kl_deltas x,
    kl_normal_loss_pair_elements
      (Tensor 1 [[0]]) (Tensor 1 [[0]]) (Tensor 1 [[0]]) (Tensor 1 [[1]])
      = Ok kl_deltas
    /\ elem kl_deltas 0 0 = Some x
    /\ x = 0.5 * (/ exp 1 - 1)
    /\ kl_delta_spec 0 0 0 1 = 0.5 * / exp 1
    /\ x <> kl_delta_spec 0 0 0 1.
Proof.
  destruct (kl_normal_loss_pair_elements_elem
              (Tensor 1 [[0]]) (Tensor 1 [[0]]) (Tensor 1 [[0]]) (Tensor 1 [[1]])
              1 1) as (kd & Heq & Hs & Hel); [concrete_shape..|].
  exists kd, (kl_delta_code 0 0 0 1). split; [done|].
  split; [by apply Hel|].
  assert (Hc : kl_delta_code 0 0 0 1 = 0.5 * (/ exp 1 - 1)).
  { rewrite kl_delta_code_simpl, exp_0.
    pose proof (exp_pos 1). field. lra. }
  assert (Hsp : kl_delta_spec 0 0 0 1 = 0.5 * / exp 1).
  { unfold kl_delta_spec. rewrite exp_0.
    pose proof (exp_pos 1). field. lra. }
  split_and!; [done..|]. rewrite Hc, Hsp. lra.
Qed.

(** C7: applied to two identical copies of one posterior,
    [kl_normal_loss_pair_elements] returns zero at every position. *)
Theorem kl_normal_loss_pair_elements_identical z_mean z_logvar n d :
  has_shape z_mean n d -> has_shape z_logvar n d ->
  exists kl_deltas,
    kl_normal_loss_pair_elements z_mean z_logvar z_mean z_logvar = Ok kl_deltas
    /\ has_shape kl_deltas n d
    /\ forall i j, (i < n)%nat -> (j < d)%nat -> elem kl_deltas i j = Some 0.
Proof.
  intros H1 H2.
  destruct (kl_normal_loss_pair_elements_elem _ _ _ _ n d H1 H2 H1 H2)
    as (kd & Heq & Hs & Hel).
  exists kd. split_and!; [done..|].
  intros i j Hi Hj.
  destruct (elem_is_Some _ _ _ _ _ H1 Hi Hj) as [m Em].
  destruct (elem_is_Some _ _ _ _ _ H2 Hi Hj) as [l El].
  rewrite (Hel i j m l m l) by done. by rewrite kl_delta_code_same.
Qed.

Lemma kl_normal_loss_pair_elements_identical_witness :
  exists kl_deltas,
    kl_normal_loss_pair_elements (Tensor 2 [[0; 5]]) (Tensor 2 [[1; -2]])
      (Tensor 2 [[0; 5]]) (Tensor 2 [[1; -2]]) = Ok kl_deltas
    /\ has_shape kl_deltas 1 2
    /\ forall i j, (i < 1)%nat -> (j < 2)%nat -> elem kl_deltas i j = Some 0.
Proof.
  apply (kl_normal_loss_pair_elements_identical
           (Tensor 2 [[0; 5]]) (Tensor 2 [[1; -2]]) 1 2); concrete_shape.
Defined.

(** C10: the KL deltas are not pointwise non-negative: with equal means
    and [logvar1 = 0 < 1 = logvar2] the returned delta is strictly
    negative. *)
Theorem kl_normal_loss_pair_elements_can_be_negative :
  exists z_mean z_logvar z2_mean z2_logvar kl_deltas x,
    has_shape z_mean 1 1 /\ has_shape z_logvar 1 1 /\
    has_shape z2_mean 1 1 /\ has_shape z2_logvar 1 1 /\
    kl_normal_loss_pair_elements z_mean z_logvar z2_mean z2_logvar = Ok kl_deltas
    /\ elem kl_deltas 0 0 = Some x
    /\ x < 0.
Proof.
  destruct (kl_normal_loss_pair_elements_elem
              (Tensor 1 [[0]]) (Tensor 1 [[0]]) (Tensor 1 [[0]]) (Tensor 1 [[1]])
              1 1) as (kd & Heq & Hs & Hel); [concrete_shape..|].
  exists (Tensor 1 [[0]]), (Tensor 1 [[0]]), (Tensor 1 [[0]]), (Tensor 1 [[1]]).
  exists kd, (kl_delta_code 0 0 0 1).
  split_and!; [concrete_shape.. | done | by apply Hel |].
  apply kl_delta_code_neg. lra.
Qed.

(** ** The threshold *)

Lemma foldl_Rmax_spec (r : list R) (x : R) :
  (foldl Rmax x r = x \/ foldl Rmax x r ∈ r)
  /\ x <= foldl Rmax x r
  /\ forall y, y ∈ r -> y <= foldl Rmax x r.
Proof.
  revert x. induction r as [|z r IH]; intros x; simpl.
  - split_and!; [by left | lra | by intros y ?%elem_of_nil].
  - destruct (IH (Rmax x z)) as (Hin & Hle & Hall).
    pose proof (Rmax_l x z). pose proof (Rmax_r x z).
    split_and!.
    + destruct Hin as [Heq|Hin]; [|right; by right].
      rewrite Heq. unfold Rmax. destruct (Rle_dec x z); [right; left | by left].
    + lra.
    + intros y [->|Hy]%elem_of_cons; [lra | by apply Hall].
Qed.

Lemma foldl_Rmin_spec (r : list R) (x : R) :
  (foldl Rmin x r = x \/ foldl Rmin x r ∈ r)
  /\ foldl Rmin x r <= x
  /\ forall y, y ∈ r -> foldl Rmin x r <= y.
Proof.
  revert x. induction r as [|z r IH]; intros x; simpl.
  - split_and!; [by left | lra | by intros y ?%elem_of_nil].
  - destruct (IH (Rmin x z)) as (Hin & Hle & Hall).
    pose proof (Rmin_l x z). pose proof (Rmin_r x z).
    split_and!.
    + destruct Hin as [Heq|Hin]; [|right; by right].
      rewrite Heq. unfold Rmin. destruct (Rle_dec x z); [by left | right; left].
    + lra.
    + intros y [->|Hy]%elem_of_cons; [lra | by apply Hall].
Qed.

Lemma row_max_spec (r : list R) : r <> [] -> is_row_max r (row_max r).
Proof.
  destruct r as [|x r]; [done|]. intros _. unfold row_max, is_row_max.
  destruct (foldl_Rmax_spec r x) as (Hin & Hle & Hall). split.
  - destruct Hin as [->|Hin]; [left | by right].
  - intros y [->|Hy]%elem_of_cons; [done | by apply Hall].
Qed.

Lemma row_min_spec (r : list R) : r <> [] -> is_row_min r (row_min r).
Proof.
  destruct r as [|x r]; [done|]. intros _. unfold row_min, is_row_min.
  destruct (foldl_Rmin_spec r x) as (Hin & Hle & Hall). split.
  - destruct Hin as [->|Hin]; [left | by right].
  - intros y [->|Hy]%elem_of_cons; [done | by apply Hall].
Qed.

Lemma row_min_le_max (r : list R) mx mn :
  is_row_max r mx -> is_row_min r mn -> mn <= mx.
Proof. intros [Hx _] [_ Hn]. by apply Hn. Qed.

Lemma binop1_same_length {X Y Z : Type} (f : X -> Y -> Z) (a : list X) (b : list Y) :
  length a = length b -> binop1 f a b = Ok (zip_with f a b).
Proof.
  intros Hlen. unfold binop1. rewrite Hlen, bcast_dim_same.
  by rewrite !stretch_id.
Qed.

Lemma estimate_kl_threshold_same kl_deltas n d :
  has_shape kl_deltas n d -> (0 < d)%nat ->
  estimate_kl_threshold kl_deltas
  = Ok (unsqueeze1 ((fun x => 0.5 * x) <$>
          zip_with Rplus (row_max <$> rows kl_deltas) (row_min <$> rows kl_deltas))).
Proof.
  intros (Hn & Hd & Hwf) Hpos.
  unfold estimate_kl_threshold, t_max_axis1, t_min_axis1.
  rewrite !decide_False by lia. cbn [mbind result_bind].
  rewrite binop1_same_length by (by rewrite !length_fmap). done.
Qed.

Lemma estimate_kl_threshold_row kl_deltas n d :
  has_shape kl_deltas n d -> (0 < d)%nat ->
  exists kl_threshs,
    estimate_kl_threshold kl_deltas = Ok kl_threshs
    /\ has_shape kl_threshs n 1
    /\ forall i r, rows kl_deltas !! i = Some r ->
        rows kl_threshs !! i = Some [0.5 * (row_max r + row_min r)].
Proof.
  intros Hs Hpos. rewrite (estimate_kl_threshold_same _ n d) by done.
  destruct Hs as (Hn & Hd & Hwf).
  eexists. split; [done|]. split.
  - unfold has_shape, nrows, wf, unsqueeze1 in *; simpl.
    rewrite !length_fmap, length_zip_with, !length_fmap.
    split_and!; [lia | done |].
    apply Forall_fmap, Forall_true. done.
  - intros i r Hr. unfold unsqueeze1; simpl.
    rewrite !list_lookup_fmap, lookup_zip_with, !list_lookup_fmap, Hr. done.
Qed.

(** C6: for [kl_deltas] of shape [[batch, latent_dim]] with
    [latent_dim >= 1], [estimate_kl_threshold] returns a tensor of shape
    [[batch, 1]] whose entry in each row is half the sum of that row's
    maximum and minimum, and lies between the two. *)
Theorem estimate_kl_threshold_midpoint kl_deltas n d :
  has_shape kl_deltas n d -> (0 < d)%nat ->
  exists kl_threshs,
    estimate_kl_threshold kl_deltas = Ok kl_threshs
    /\ shape kl_threshs = (n, 1%nat)
    /\ has_shape kl_threshs n 1
    /\ forall i, (i < n)%nat ->
        exists r mx mn t,
          rows kl_deltas !! i = Some r
          /\ is_row_max r mx /\ is_row_min r mn
          /\ rows kl_threshs !! i = Some [t]
          /\ t = 0.5 * (mx + mn)
          /\ mn <= t <= mx.
Proof.
  intros Hs Hpos.
  destruct (estimate_kl_threshold_row _ n d Hs Hpos) as (th & Heq & Hth & Hrow).
  exists th. split_and!; [done | | done |].
  { destruct Hth as (? & ? & _). unfold shape. congruence. }
  intros i Hi. destruct Hs as (Hn & Hd & Hwf). unfold nrows in Hn.
  destruct (lookup_lt_is_Some_2 (rows kl_deltas) i) as [r Hr]; [lia|].
  assert (Hne : r <> []).
  { pose proof (Forall_lookup_1 _ _ _ _ Hwf Hr) as Hlen; simpl in Hlen.
    intros ->. simpl in Hlen. lia. }
  pose proof (row_max_spec r Hne) as Hmax.
  pose proof (row_min_spec r Hne) as Hmin.
  pose proof (row_min_le_max r _ _ Hmax Hmin).
  exists r, (row_max r), (row_min r). eexists.
  split_and!; [done | done | done | by apply Hrow | done | lra | lra].
Qed.

Lemma estimate_kl_threshold_midpoint_witness :
  exists kl_threshs,
    estimate_kl_threshold (Tensor 2 [[0; 12.5]; [3; 1]]) = Ok kl_threshs
    /\ shape kl_threshs = (2%nat, 1%nat)
    /\ has_shape kl_threshs 2 1
    /\ forall i, (i < 2)%nat ->
        exists r mx mn t,
          rows (Tensor 2 [[0; 12.5]; [3; 1]]) !! i = Some r
          /\ is_row_max r mx /\ is_row_min r mn
          /\ rows kl_threshs !! i = Some [t]
          /\ t = 0.5 * (mx + mn)
          /\ mn <= t <= mx.
Proof.
  apply (estimate_kl_threshold_midpoint (Tensor 2 [[0; 12.5]; [3; 1]]) 2 2);
    [concrete_shape | lia].
Defined.

(** ** Comparison against the per-row threshold, and [estimate_unchanged] *)

Lemma bcast_dim_1_r d : bcast_dim d 1 = Some d.
Proof. unfold bcast_dim. repeat case_decide; congruence. Qed.

Lemma length_stretch_1 {X : Type} (l : list X) k :
  length l = 1%nat -> length (stretch k l) = k.
Proof. destruct l as [|x [|y l]]; simpl; intros; [lia | apply length_replicate | lia]. Qed.

Lemma zip_rows_bcast_col_shape {X Y Z : Type} (f : X -> Y -> Z)
    (la : list (list X)) (lb : list (list Y)) d :
  Forall (fun r => length r = d) la ->
  Forall (fun r => length r = 1%nat) lb ->
  Forall (fun r => length r = d)
    (zip_with (fun ra rb => zip_with f (stretch d ra) (stretch d rb)) la lb).
Proof.
  intros Ha. revert lb. induction Ha as [|ra la Hra Ha IH]; intros lb Hb;
    [constructor|].
  destruct Hb as [|rb lb Hrb Hb]; simpl; constructor; [|by apply IH].
  rewrite length_zip_with, stretch_id, length_stretch_1 by done. lia.
Qed.

(** A [[n, d]] tensor against a [[n, 1]] tensor: the single column is
    broadcast along each row. *)
Lemma binop_bcast_col {X Y Z : Type} (f : X -> Y -> Z)
    (a : tensor X) (b : tensor Y) n d :
  has_shape a n d -> has_shape b n 1 ->
  exists c, binop f a b = Ok c
            /\ has_shape c n d
            /\ forall i j x y, elem a i j = Some x -> rows b !! i = Some [y] ->
                elem c i j = Some (f x y).
Proof.
  intros (Han & Had & Hawf) (Hbn & Hbd & Hbwf). unfold binop.
  rewrite Han, Hbn, Had, Hbd, bcast_dim_same, bcast_dim_1_r.
  unfold nrows, wf in *. rewrite !stretch_id by done.
  rewrite Had in Hawf. rewrite Hbd in Hbwf.
  eexists. split; [done|]. split.
  - unfold has_shape, nrows, wf; simpl. rewrite length_zip_with.
    split_and!; [lia | done | by apply zip_rows_bcast_col_shape].
  - intros i j x y Hx Hy. unfold elem in *; simpl.
    rewrite lookup_zip_with, Hy.
    destruct (rows a !! i) as [ra|] eqn:Hra; [simpl | done].
    pose proof (Forall_lookup_1 _ _ _ _ Hawf Hra) as Hlen; simpl in Hlen.
    rewrite stretch_id by done. simpl.
    rewrite lookup_zip_with, Hx; simpl.
    rewrite lookup_replicate_2; [done|].
    rewrite <- Hlen. by eapply lookup_lt_Some.
Qed.

Lemma estimate_unchanged_spec z_mean z_logvar z2_mean z2_logvar n d :
  has_shape z_mean n d -> has_shape z_logvar n d ->
  has_shape z2_mean n d -> has_shape z2_logvar n d ->
  (0 < d)%nat ->
  exists kl_deltas kl_threshs unchanged_mask,
    estimate_unchanged z_mean z_logvar z2_mean z2_logvar
      = Ok (kl_deltas, kl_threshs, unchanged_mask)
    /\ kl_normal_loss_pair_elements z_mean z_logvar z2_mean z2_logvar
        = Ok kl_deltas
    /\ estimate_kl_threshold kl_deltas = Ok kl_threshs
    /\ has_shape kl_deltas n d /\ has_shape kl_threshs n 1
    /\ has_shape unchanged_mask n d
    /\ forall i j x r, elem kl_deltas i j = Some x ->
        rows kl_deltas !! i = Some r ->
        elem unchanged_mask i j
        = Some (bool_decide (x < 0.5 * (row_max r + row_min r))).
Proof.
  intros H1 H2 H3 H4 Hpos.
  destruct (kl_normal_loss_pair_elements_elem _ _ _ _ n d H1 H2 H3 H4)
    as (kd & Hkd & Skd & _).
  destruct (estimate_kl_threshold_row _ n d Skd Hpos) as (kt & Hkt & Skt & Hrow).
  destruct (binop_bcast_col (fun x y => bool_decide (x < y)) kd kt n d Skd Skt)
    as (mask & Hmask & Smask & Hel).
  exists kd, kt, mask. unfold estimate_unchanged.
  rewrite Hkd; cbn [mbind result_bind]. rewrite Hkt; cbn [mbind result_bind].
  unfold t_lt. rewrite Hmask; cbn [mbind result_bind].
  split_and!; [done..|].
  intros i j x r Hx Hr. apply Hel; [done | by apply Hrow].
Qed.

(** ** Exchanging the two posteriors *)

Lemma kl_normal_loss_pair_elements_swap z_mean z2_mean z_logvar n d :
  has_shape z_mean n d -> has_shape z2_mean n d -> has_shape z_logvar n d ->
  kl_normal_loss_pair_elements z_mean z_logvar z2_mean z_logvar
  = kl_normal_loss_pair_elements z2_mean z_logvar z_mean z_logvar.
Proof.
  intros H1 H3 H2.
  destruct (kl_normal_loss_pair_elements_elem _ _ _ _ n d H1 H2 H3 H2)
    as (kd & Hkd & Skd & Hel).
  destruct (kl_normal_loss_pair_elements_elem _ _ _ _ n d H3 H2 H1 H2)
    as (kd' & Hkd' & Skd' & Hel').
  rewrite Hkd, Hkd'. f_equal.
  apply (tensor_ext _ _ n d); [done..|].
  intros i j Hi Hj.
  destruct (elem_is_Some _ _ _ _ _ H1 Hi Hj) as [m1 E1].
  destruct (elem_is_Some _ _ _ _ _ H2 Hi Hj) as [l E2].
  destruct (elem_is_Some _ _ _ _ _ H3 Hi Hj) as [m2 E3].
  rewrite (Hel i j m1 l m2 l), (Hel' i j m2 l m1 l) by done.
  f_equal. by apply kl_delta_code_swap_iff.
Qed.

(** C8, as the code has it: when the two posteriors have the same logvar
    at every position, exchanging them leaves the KL deltas, the threshold
    and the unchanged mask of [estimate_unchanged] as they were. *)
Theorem estimate_unchanged_swap_equal_logvar z_mean z2_mean z_logvar n d :
  has_shape z_mean n d -> has_shape z2_mean n d -> has_shape z_logvar n d ->
  (0 < d)%nat ->
  exists kl_deltas kl_threshs unchanged_mask,
    estimate_unchanged z_mean z_logvar z2_mean z_logvar
      = Ok (kl_deltas, kl_threshs, unchanged_mask)
    /\ estimate_unchanged z2_mean z_logvar z_mean z_logvar
        = Ok (kl_deltas, kl_threshs, unchanged_mask).
Proof.
  intros H1 H3 H2 Hpos.
  destruct (estimate_unchanged_spec _ _ _ _ n d H1 H2 H3 H2 Hpos)
    as (kd & kt & mask & Heq & _).
  exists kd, kt, mask. split; [done|].
  rewrite <- Heq. unfold estimate_unchanged.
  by rewrite (kl_normal_loss_pair_elements_swap z_mean z2_mean z_logvar n d).
Qed.

Lemma estimate_unchanged_swap_equal_logvar_witness :
  exists kl_deltas kl_threshs unchanged_mask,
    estimate_unchanged (Tensor 2 [[0; 0]]) (Tensor 2 [[1; -1]])
      (Tensor 2 [[0; 5]]) (Tensor 2 [[1; -1]])
      = Ok (kl_deltas, kl_threshs, unchanged_mask)
    /\ estimate_unchanged (Tensor 2 [[0; 5]]) (Tensor 2 [[1; -1]])
        (Tensor 2 [[0; 0]]) (Tensor 2 [[1; -1]])
        = Ok (kl_deltas, kl_threshs, unchanged_mask).
Proof.
  apply (estimate_unchanged_swap_equal_logvar
           (Tensor 2 [[0; 0]]) (Tensor 2 [[0; 5]]) (Tensor 2 [[1; -1]]) 1 2);
    [concrete_shape.. | lia].
Defined.

Lemma exp_ln_2 : exp (ln 2) = 2.
Proof. apply exp_ln. lra. Qed.

(** C8 fails as stated.  With all means zero, logvar1 = [[0, 0]] and
    logvar2 = [[ln 2, 0]], the first delta is [-0.25] and the mask is
    [[true, false]]; with the two posteriors exchanged the first delta is
    [0.5] and the mask is [[false, true]]. *)
Lemma estimate_unchanged_not_swap_invariant :
  exists kl_deltas kl_threshs unchanged_mask kl_deltas' kl_threshs' unchanged_mask',
    estimate_unchanged (Tensor 2 [[0; 0]]) (Tensor 2 [[0; 0]])
      (Tensor 2 [[0; 0]]) (Tensor 2 [[ln 2; 0]])
      = Ok (kl_deltas, kl_threshs, unchanged_mask)
    /\ estimate_unchanged (Tensor 2 [[0; 0]]) (Tensor 2 [[ln 2; 0]])
        (Tensor 2 [[0; 0]]) (Tensor 2 [[0; 0]])
        = Ok (kl_deltas', kl_threshs', unchanged_mask')
    /\ (exists x x', elem kl_deltas 0 0 = Some x /\ elem kl_deltas' 0 0 = Some x'
                      /\ x = -0.25 /\ x' = 0.5)
    /\ elem unchanged_mask 0 0 = Some true
    /\ elem unchanged_mask 0 1 = Some false
    /\ elem unchanged_mask' 0 0 = Some false
    /\ elem unchanged_mask' 0 1 = Some true.
Proof.
  set (zero := Tensor 2 [[0; 0]]). set (lv := Tensor 2 [[ln 2; 0]]).
  assert (Sz : has_shape zero 1 2) by concrete_shape.
  assert (Sl : has_shape lv 1 2) by concrete_shape.
  destruct (estimate_unchanged_spec zero zero zero lv 1 2)
    as (kd & kt & mask & Heq & Hkd & _ & Skd & _ & _ & Hm); [done..| lia |].
  destruct (estimate_unchanged_spec zero lv zero zero 1 2)
    as (kd' & kt' & mask' & Heq' & Hkd' & _ & Skd' & _ & _ & Hm'); [done..| lia |].
  rewrite (kl_normal_loss_pair_elements_same _ _ _ _ 1 2) in Hkd by done.
  rewrite (kl_normal_loss_pair_elements_same _ _ _ _ 1 2) in Hkd' by done.
  injection Hkd as <-. injection Hkd' as <-.
  assert (A00 : kl_delta_code 0 0 0 (ln 2) = -0.25).
  { rewrite kl_delta_code_simpl, exp_0, exp_ln_2. lra. }
  assert (A01 : kl_delta_code 0 0 0 0 = 0) by apply kl_delta_code_same.
  assert (B00 : kl_delta_code 0 (ln 2) 0 0 = 0.5).
  { rewrite kl_delta_code_simpl, exp_0, exp_ln_2. lra. }
  eexists _, kt, mask, _, kt', mask'. split; [exact Heq|]. split; [exact Heq'|].
  split.
  { exists (kl_delta_code 0 0 0 (ln 2)), (kl_delta_code 0 (ln 2) 0 0).
    split_and!; [reflexivity | reflexivity | done | done]. }
  assert (R1 : row_max [kl_delta_code 0 0 0 (ln 2); kl_delta_code 0 0 0 0] = 0).
  { simpl. rewrite A00, A01. apply Rmax_right. lra. }
  assert (R2 : row_min [kl_delta_code 0 0 0 (ln 2); kl_delta_code 0 0 0 0] = -0.25).
  { simpl. rewrite A00, A01. apply Rmin_left. lra. }
  assert (R3 : row_max [kl_delta_code 0 (ln 2) 0 0; kl_delta_code 0 0 0 0] = 0.5).
  { simpl. rewrite B00, A01. apply Rmax_left. lra. }
  assert (R4 : row_min [kl_delta_code 0 (ln 2) 0 0; kl_delta_code 0 0 0 0] = 0).
  { simpl. rewrite B00, A01. apply Rmin_right. lra. }
  split_and!.
  - rewrite (Hm 0%nat 0%nat (kl_delta_code 0 0 0 (ln 2))
               [kl_delta_code 0 0 0 (ln 2); kl_delta_code 0 0 0 0] eq_refl eq_refl).
    f_equal. apply bool_decide_eq_true. rewrite R1, R2, A00. lra.
  - rewrite (Hm 0%nat 1%nat (kl_delta_code 0 0 0 0)
               [kl_delta_code 0 0 0 (ln 2); kl_delta_code 0 0 0 0] eq_refl eq_refl).
    f_equal. apply bool_decide_eq_false. rewrite R1, R2, A01. lra.
  - rewrite (Hm' 0%nat 0%nat (kl_delta_code 0 (ln 2) 0 0)
               [kl_delta_code 0 (ln 2) 0 0; kl_delta_code 0 0 0 0] eq_refl eq_refl).
    f_equal. apply bool_decide_eq_false. rewrite R3, R4, B00. lra.
  - rewrite (Hm' 0%nat 1%nat (kl_delta_code 0 0 0 0)
               [kl_delta_code 0 (ln 2) 0 0; kl_delta_code 0 0 0 0] eq_refl eq_refl).
    f_equal. apply bool_decide_eq_true. rewrite R3, R4, A01. lra.
Qed.
End numeric_facts.

(** * [AdaVaeLoss]: construction and [intercept_z] *)

Section strings.
Implicit Types (s t x : string).

Lemma append_cons c s t : String c s +:+ t = String c (s +:+ t).
Proof. reflexivity. Qed.

Lemma append_assoc s t x : (s +:+ t) +:+ x = s +:+ (t +:+ x).
Proof. induction s as [|c s IH]; [done|]. by rewrite !append_cons, IH. Qed.

Lemma append_empty_r s : s +:+ "" = s.
Proof. induction s as [|c s IH]; [done|]. by rewrite append_cons, IH. Qed.

Lemma mentions_refl s : mentions s s.
Proof. exists "", "". by rewrite append_empty_r. Qed.

Lemma mentions_app_l s t x : mentions s x -> mentions (s +:+ t) x.
Proof.
  intros (pre & post & ->). exists pre, (post +:+ t).
  by rewrite !append_assoc.
Qed.

Lemma mentions_app_r s t x : mentions t x -> mentions (s +:+ t) x.
Proof.
  intros (pre & post & ->). exists (s +:+ pre), post.
  by rewrite !append_assoc.
Qed.

Lemma mentions_concat sep (l : list string) x :
  x ∈ l -> mentions (String.concat sep l) x.
Proof.
  induction l as [|y l IH]; [by intros ?%elem_of_nil|].
  intros [->|Hx]%elem_of_cons.
  - destruct l; simpl; [apply mentions_refl | apply mentions_app_l, mentions_refl].
  - destruct l as [|z l]; [by apply elem_of_nil in Hx|].
    change (String.concat sep (y :: z :: l))
      with (y +:+ sep +:+ String.concat sep (z :: l)).
    by apply mentions_app_r, mentions_app_r, IH.
Qed.
End strings.

(** ** Which computations can raise [KeyError] *)

Section key_errors.
Context {A B C : Type}.

Lemma nke_ok (a : A) : no_key_error (Ok a).
Proof. by intros msg. Qed.

Lemma nke_bind (m : result A) (f : A -> result B) :
  no_key_error m -> (forall a, no_key_error (f a)) -> no_key_error (m ≫= f).
Proof.
  intros Hm Hf. destruct m as [a|e]; [apply Hf|].
  intros msg Heq. cbn in Heq. injection Heq as ->. by eapply Hm.
Qed.

Lemma nke_binop (f : A -> B -> C) (a : tensor A) (b : tensor B) :
  no_key_error (binop f a b).
Proof. unfold binop. intros msg. by repeat case_match. Qed.

Lemma nke_binop1 (f : A -> B -> C) (a : list A) (b : list B) :
  no_key_error (binop1 f a b).
Proof. unfold binop1. intros msg. by repeat case_match. Qed.

Lemma nke_masked_select (t : tensor A) (mask : tensor bool) :
  no_key_error (masked_select t mask).
Proof. unfold masked_select. intros msg. by repeat case_match. Qed.

Lemma nke_masked_assign (t : tensor A) (mask : tensor bool) (vals : list A) :
  no_key_error (masked_assign t mask vals).
Proof. unfold masked_assign. intros msg. by repeat case_match. Qed.

Lemma nke_M_bind (m : M A) (f : A -> M B) (h : heap) :
  (forall h', no_key_error (m h')) ->
  (forall a h', no_key_error (f a h')) ->
  no_key_error ((m ≫= f) h).
Proof.
  intros Hm Hf. unfold mbind, M_bind. specialize (Hm h).
  destruct (m h) as [[a h']|e]; [apply Hf|].
  intros msg Heq. injection Heq as ->. by eapply Hm.
Qed.

Lemma nke_lift (r : result A) (h : heap) :
  no_key_error r -> no_key_error (lift r h).
Proof.
  intros Hr. destruct r; [by intros msg|].
  intros msg Heq. cbn in Heq. injection Heq as ->. by eapply Hr.
Qed.
End key_errors.

Lemma nke_t_max_axis1 (t : tensor R) : no_key_error (t_max_axis1 t).
Proof. unfold t_max_axis1. intros msg. by case_decide. Qed.

Lemma nke_t_min_axis1 (t : tensor R) : no_key_error (t_min_axis1 t).
Proof. unfold t_min_axis1. intros msg. by case_decide. Qed.

Ltac nke_step :=
  first
    [ apply nke_ok
    | apply nke_binop
    | apply nke_binop1
    | apply nke_t_max_axis1
    | apply nke_t_min_axis1
    | apply nke_masked_select
    | apply nke_masked_assign
    | apply nke_bind; [|intros ?] ].

Lemma nke_compute_average_gvae (a b c d : tensor R) :
  no_key_error (compute_average_gvae a b c d).
Proof. unfold compute_average_gvae, t_add. repeat nke_step. Qed.

Lemma nke_compute_average_ml_vae (a b c d : tensor R) :
  no_key_error (compute_average_ml_vae a b c d).
Proof. unfold compute_average_ml_vae, t_add, t_mul. repeat nke_step. Qed.

Lemma nke_kl_normal_loss_pair_elements (a b c d : tensor R) :
  no_key_error (kl_normal_loss_pair_elements a b c d).
Proof.
  unfold kl_normal_loss_pair_elements, t_add, t_sub, t_div. repeat nke_step.
Qed.

Lemma nke_estimate_kl_threshold (a : tensor R) :
  no_key_error (estimate_kl_threshold a).
Proof. unfold estimate_kl_threshold. repeat nke_step. Qed.

Lemma nke_estimate_unchanged (a b c d : tensor R) :
  no_key_error (estimate_unchanged a b c d).
Proof.
  unfold estimate_unchanged, t_lt.
  apply nke_bind; [apply nke_kl_normal_loss_pair_elements | intros kd].
  apply nke_bind; [apply nke_estimate_kl_threshold | intros kt].
  repeat nke_step.
Qed.

Lemma nke_setitem_mask (x : loc) (mask : tensor bool) (vals : list R) (h : heap) :
  no_key_error (setitem_mask x mask vals h).
Proof.
  unfold setitem_mask.
  apply nke_M_bind; [by intros h' msg | intros t h'].
  apply nke_M_bind; [intros h''; apply nke_lift, nke_masked_assign | intros t' h''].
  by intros msg.
Qed.

(** ** The constructor *)

Section init_facts.
Variable repr : string -> string.
Variable set_iter : gset string -> list string.

Lemma lookup_AVERAGING_FUNCTIONS (average_mode : string) :
  AdaVaeLoss.AVERAGING_FUNCTIONS !! average_mode
  = if decide (average_mode = "ml-vae") then Some compute_average_ml_vae
    else if decide (average_mode = "gvae") then Some compute_average_gvae
    else None.
Proof.
  unfold AdaVaeLoss.AVERAGING_FUNCTIONS.
  rewrite !lookup_insert, lookup_empty.
  repeat case_decide; congruence.
Qed.

Lemma init_gvae (beta : R) :
  AdaVaeLoss.__init__ repr set_iter beta "gvae"
  = Ok (AdaVaeLoss.Self beta compute_average_gvae).
Proof.
  unfold AdaVaeLoss.__init__, AdaVaeLoss.BetaVaeLoss_init.
  cbn [mbind result_bind]. by rewrite lookup_AVERAGING_FUNCTIONS.
Qed.

Lemma init_ml_vae (beta : R) :
  AdaVaeLoss.__init__ repr set_iter beta "ml-vae"
  = Ok (AdaVaeLoss.Self beta compute_average_ml_vae).
Proof.
  unfold AdaVaeLoss.__init__, AdaVaeLoss.BetaVaeLoss_init.
  cbn [mbind result_bind]. by rewrite lookup_AVERAGING_FUNCTIONS.
Qed.

Lemma init_unsupported (beta : R) (average_mode : string) :
  average_mode <> "gvae" -> average_mode <> "ml-vae" ->
  AdaVaeLoss.__init__ repr set_iter beta average_mode
  = Raise (KeyError (AdaVaeLoss.unsupported_msg repr set_iter average_mode)).
Proof.
  intros Hg Hm. unfold AdaVaeLoss.__init__, AdaVaeLoss.BetaVaeLoss_init.
  cbn [mbind result_bind]. rewrite lookup_AVERAGING_FUNCTIONS.
  by rewrite !decide_False.
Qed.

Lemma init_inv (beta : R) (average_mode : string) (s : AdaVaeLoss.self) :
  AdaVaeLoss.__init__ repr set_iter beta average_mode = Ok s ->
  (average_mode = "gvae" /\ s = AdaVaeLoss.Self beta compute_average_gvae)
  \/ (average_mode = "ml-vae" /\ s = AdaVaeLoss.Self beta compute_average_ml_vae).
Proof.
  destruct (decide (average_mode = "gvae")) as [->|Hg].
  { rewrite init_gvae. intros [= <-]. by left. }
  destruct (decide (average_mode = "ml-vae")) as [->|Hm].
  { rewrite init_ml_vae. intros [= <-]. by right. }
  by rewrite init_unsupported.
Qed.

Lemma dom_AVERAGING_FUNCTIONS (k : string) :
  k = "gvae" \/ k = "ml-vae" -> k ∈ dom AdaVaeLoss.AVERAGING_FUNCTIONS.
Proof.
  intros Hk. apply elem_of_dom. rewrite lookup_AVERAGING_FUNCTIONS.
  destruct Hk as [->| ->]; by repeat case_decide.
Qed.

Lemma unsupported_msg_mentions_mode (average_mode : string) :
  mentions (AdaVaeLoss.unsupported_msg repr set_iter average_mode)
    (repr average_mode).
Proof.
  unfold AdaVaeLoss.unsupported_msg.
  apply mentions_app_r, mentions_app_l, mentions_refl.
Qed.

Lemma unsupported_msg_mentions_key (average_mode k : string) :
  (forall (X : gset string) x, x ∈ X -> x ∈ set_iter X) ->
  k = "gvae" \/ k = "ml-vae" ->
  mentions (AdaVaeLoss.unsupported_msg repr set_iter average_mode) (repr k).
Proof.
  intros Hiter Hk. unfold AdaVaeLoss.unsupported_msg, AdaVaeLoss.repr_set.
  do 4 apply mentions_app_r. apply mentions_app_l, mentions_concat.
  apply list_elem_of_fmap. exists k. split; [done|].
  by apply Hiter, dom_AVERAGING_FUNCTIONS.
Qed.

Lemma nke_compute_average (beta : R) (average_mode : string)
    (s : AdaVaeLoss.self) (a b c d : tensor R) :
  AdaVaeLoss.__init__ repr set_iter beta average_mode = Ok s ->
  no_key_error (AdaVaeLoss.compute_average s a b c d).
Proof.
  intros [[_ ->]|[_ ->]]%init_inv; simpl;
    [apply nke_compute_average_gvae | apply nke_compute_average_ml_vae].
Qed.

Lemma nke_intercept_z (s : AdaVaeLoss.self) z_mean z_logvar args kwargs h :
  (forall a b c d, no_key_error (AdaVaeLoss.compute_average s a b c d)) ->
  no_key_error (AdaVaeLoss.intercept_z s z_mean z_logvar args kwargs h).
Proof.
  intros Hs. unfold AdaVaeLoss.intercept_z.
  destruct args as [|z2_mean [|z2_logvar [|? ?]]]; try by intros msg.
  case_decide; [|by intros msg].
  do 4 (apply nke_M_bind; [by intros ? msg | intros ? ?]).
  apply nke_M_bind; [intros ?; apply nke_lift, nke_estimate_unchanged|].
  intros [[kd kt] mask] ?.
  apply nke_M_bind; [intros ?; apply nke_lift, Hs|]. intros [mu lv] ?.
  do 2 (apply nke_M_bind; [intros ?; apply nke_lift, nke_masked_select|];
        intros ? ?).
  do 2 (apply nke_M_bind; [intros ?; apply nke_setitem_mask|]; intros ? ?).
  do 2 (apply nke_M_bind; [intros ?; apply nke_lift, nke_masked_select|];
        intros ? ?).
  do 2 (apply nke_M_bind; [intros ?; apply nke_setitem_mask|]; intros ? ?).
  by intros msg.
Qed.
End init_facts.

(** C9: constructing [AdaVaeLoss] with an [average_mode] other than
    ["gvae"] and ["ml-vae"] raises [KeyError] from [__init__], with a
    message that contains the [repr] of the offending value and of each
    valid value; constructing with a valid mode returns an object; and on
    a constructed object [intercept_z] never raises [KeyError]. *)
Theorem init_rejects_unknown_average_mode
    (repr : string -> string) (set_iter : gset string -> list string)
    (Hiter : forall (X : gset string) x, x ∈ X -> x ∈ set_iter X)
    (beta : R) (average_mode : string) :
  (average_mode <> "gvae" -> average_mode <> "ml-vae" ->
   exists msg,
     AdaVaeLoss.__init__ repr set_iter beta average_mode = Raise (KeyError msg)
     /\ msg = AdaVaeLoss.unsupported_msg repr set_iter average_mode
     /\ mentions msg (repr average_mode)
     /\ mentions msg (repr "gvae") /\ mentions msg (repr "ml-vae"))
  /\ (average_mode = "gvae" \/ average_mode = "ml-vae" ->
      exists s, AdaVaeLoss.__init__ repr set_iter beta average_mode = Ok s)
  /\ (forall s, AdaVaeLoss.__init__ repr set_iter beta average_mode = Ok s ->
      forall z_mean z_logvar args kwargs h,
        no_key_error (AdaVaeLoss.intercept_z s z_mean z_logvar args kwargs h)).
Proof.
  split_and!.
  - intros Hg Hm. eexists. split; [by apply init_unsupported|].
    split_and!; [done | apply unsupported_msg_mentions_mode | |];
      apply unsupported_msg_mentions_key; auto.
  - intros [-> | ->]; eexists; [apply init_gvae | apply init_ml_vae].
  - intros s Hs z_mean z_logvar args kwargs h. apply nke_intercept_z.
    intros a b c d. by eapply nke_compute_average.
Qed.

Lemma init_rejects_unknown_average_mode_witness :
  ("bogus" <> "gvae" -> "bogus" <> "ml-vae" ->
   exists msg,
     AdaVaeLoss.__init__ quoted elements 4 "bogus" = Raise (KeyError msg)
     /\ msg = AdaVaeLoss.unsupported_msg quoted elements "bogus"
     /\ mentions msg (quoted "bogus")
     /\ mentions msg (quoted "gvae") /\ mentions msg (quoted "ml-vae"))
  /\ ("bogus" = "gvae" \/ "bogus" = "ml-vae" ->
      exists s, AdaVaeLoss.__init__ quoted elements 4 "bogus" = Ok s)
  /\ (forall s, AdaVaeLoss.__init__ quoted elements 4 "bogus" = Ok s ->
      forall z_mean z_logvar args kwargs h,
        no_key_error (AdaVaeLoss.intercept_z s z_mean z_logvar args kwargs h)).
Proof.
  apply (init_rejects_unknown_average_mode quoted elements).
  intros X x Hx. by apply elem_of_elements.
Defined.

(** The message for ['bogus'], with [repr] as [quoted] and the set printed
    in the order of [elements]. *)
Example init_bogus_message :
  AdaVaeLoss.__init__ quoted elements 4 "bogus"
  = Raise (KeyError
      "Unsupported average_mode='bogus' must be one of: {'gvae', 'ml-vae'}").
Proof. rewrite init_unsupported by done. by vm_compute. Qed.

(** ** [intercept_z] *)

Section intercept.
Implicit Types (h : heap) (x y : loc) (n d : nat).

Lemma M_bind_run {A B : Type} (m : M A) (f : A -> M B) h a h' :
  m h = Ok (a, h') -> (m ≫= f) h = f a h'.
Proof. intros Hm. unfold mbind, M_bind. by rewrite Hm. Qed.

Lemma has_shape_insert h x y (t : tensor R) n d :
  has_shape t n d -> has_shape (h x) n d -> has_shape ((<[y := t]> h) x) n d.
Proof.
  intros Ht Hx. destruct (decide (y = x)) as [->|Hne].
  - by rewrite fn_lookup_insert.
  - by rewrite fn_lookup_insert_ne.
Qed.

Lemma setitem_mask_run x (mask : tensor bool) (a : tensor R) vs h n d :
  has_shape (h x) n d -> has_shape a n d -> has_shape mask n d ->
  masked_select a mask = Ok vs ->
  setitem_mask x mask vs h = Ok (tt, <[x := twhere mask a (h x)]> h).
Proof.
  intros Hx Ha Hm Hvs.
  destruct (select_then_assign (h x) a mask n d Hx Ha Hm) as (vs' & Hvs' & Has).
  rewrite Hvs in Hvs'. injection Hvs' as <-.
  unfold setitem_mask.
  rewrite (M_bind_run _ _ h (h x) h) by done.
  rewrite (M_bind_run _ _ h (twhere mask a (h x)) h); [done|].
  unfold lift. by rewrite Has.
Qed.

(** On four tensors of one shape, [intercept_z] returns its four
    references and leaves the heap of [after_assignments]. *)
Lemma intercept_z_run (s : AdaVaeLoss.self) z_mean z_logvar z2_mean z2_logvar h n d
    (kl_deltas kl_threshs : tensor R) (ave_mask : tensor bool)
    (ave_mu ave_logvar : tensor R) :
  has_shape (h z_mean) n d -> has_shape (h z_logvar) n d ->
  has_shape (h z2_mean) n d -> has_shape (h z2_logvar) n d ->
  estimate_unchanged (h z_mean) (h z_logvar) (h z2_mean) (h z2_logvar)
    = Ok (kl_deltas, kl_threshs, ave_mask) ->
  AdaVaeLoss.compute_average s (h z_mean) (h z_logvar) (h z2_mean) (h z2_logvar)
    = Ok (ave_mu, ave_logvar) ->
  has_shape ave_mask n d -> has_shape ave_mu n d -> has_shape ave_logvar n d ->
  AdaVaeLoss.intercept_z s z_mean z_logvar [z2_mean; z2_logvar] [] h
  = Ok ((z_mean, z_logvar, z2_mean, z2_logvar),
        after_assignments ave_mask ave_mu ave_logvar
          z_mean z_logvar z2_mean z2_logvar h).
Proof.
  intros H1 H2 H3 H4 Hest Havg Sm Smu Slv.
  destruct (select_then_assign (h z_mean) ave_mu ave_mask n d H1 Smu Sm)
    as (vmu & Hvmu & _).
  destruct (select_then_assign (h z_logvar) ave_logvar ave_mask n d H2 Slv Sm)
    as (vlv & Hvlv & _).
  unfold AdaVaeLoss.intercept_z, after_assignments.
  rewrite decide_True by done.
  rewrite (M_bind_run _ _ h (h z_mean) h) by done.
  rewrite (M_bind_run _ _ h (h z_logvar) h) by done.
  rewrite (M_bind_run _ _ h (h z2_mean) h) by done.
  rewrite (M_bind_run _ _ h (h z2_logvar) h) by done.
  rewrite (M_bind_run _ _ h (kl_deltas, kl_threshs, ave_mask) h)
    by (unfold lift; by rewrite Hest).
  cbv beta iota.
  rewrite (M_bind_run _ _ h (ave_mu, ave_logvar) h)
    by (unfold lift; by rewrite Havg).
  cbv beta iota.
  rewrite (M_bind_run _ _ h vmu h) by (unfold lift; by rewrite Hvmu).
  rewrite (M_bind_run _ _ h vlv h) by (unfold lift; by rewrite Hvlv).
  set (h1 := <[z_mean := twhere ave_mask ave_mu (h z_mean)]> h).
  rewrite (M_bind_run _ _ h tt h1)
    by (by apply (setitem_mask_run _ _ _ _ _ n d)).
  set (h2 := <[z_logvar := twhere ave_mask ave_logvar (h1 z_logvar)]> h1).
  assert (S1 : forall x, has_shape (h x) n d -> has_shape (h1 x) n d).
  { intros x Hx. apply has_shape_insert; [by apply has_shape_twhere | done]. }
  rewrite (M_bind_run _ _ h1 tt h2)
    by (apply (setitem_mask_run _ _ _ _ _ n d); auto).
  assert (S2 : forall x, has_shape (h x) n d -> has_shape (h2 x) n d).
  { intros x Hx. apply has_shape_insert; [apply has_shape_twhere|]; auto. }
  rewrite (M_bind_run _ _ h2 vmu h2) by (unfold lift; by rewrite Hvmu).
  rewrite (M_bind_run _ _ h2 vlv h2) by (unfold lift; by rewrite Hvlv).
  set (h3 := <[z2_mean := twhere ave_mask ave_mu (h2 z2_mean)]> h2).
  rewrite (M_bind_run _ _ h2 tt h3)
    by (apply (setitem_mask_run _ _ _ _ _ n d); auto).
  assert (S3 : forall x, has_shape (h x) n d -> has_shape (h3 x) n d).
  { intros x Hx. apply has_shape_insert; [apply has_shape_twhere|]; auto. }
  set (h4 := <[z2_logvar := twhere ave_mask ave_logvar (h3 z2_logvar)]> h3).
  rewrite (M_bind_run _ _ h3 tt h4)
    by (apply (setitem_mask_run _ _ _ _ _ n d); auto).
  done.
Qed.

Ltac heap_lookups :=
  repeat first
    [ rewrite fn_lookup_insert
    | rewrite fn_lookup_insert_ne by congruence ].

(** When no mean tensor is also a logvar tensor, each of the four tensors
    ends as the [where] of its own original contents. *)
Lemma after_assignments_values (mask : tensor bool) (mu lv : tensor R)
    z_mean z_logvar z2_mean z2_logvar h n d :
  has_shape (h z_mean) n d -> has_shape (h z_logvar) n d ->
  has_shape (h z2_mean) n d -> has_shape (h z2_logvar) n d ->
  has_shape mask n d -> has_shape mu n d -> has_shape lv n d ->
  z_mean <> z_logvar -> z_mean <> z2_logvar ->
  z2_mean <> z_logvar -> z2_mean <> z2_logvar ->
  let h' := after_assignments mask mu lv z_mean z_logvar z2_mean z2_logvar h in
  h' z_mean = twhere mask mu (h z_mean)
  /\ h' z_logvar = twhere mask lv (h z_logvar)
  /\ h' z2_mean = twhere mask mu (h z2_mean)
  /\ h' z2_logvar = twhere mask lv (h z2_logvar)
  /\ forall x, x <> z_mean -> x <> z_logvar -> x <> z2_mean -> x <> z2_logvar ->
      h' x = h x.
Proof.
  intros H1 H2 H3 H4 Sm Smu Slv N1 N2 N3 N4. unfold after_assignments.
  cbv zeta. split_and!.
  - destruct (decide (z2_mean = z_mean)) as [->|?]; heap_lookups;
      [by apply (twhere_idemp _ _ _ n d) | done].
  - destruct (decide (z2_logvar = z_logvar)) as [->|?]; heap_lookups;
      [by apply (twhere_idemp _ _ _ n d) | done].
  - destruct (decide (z2_mean = z_mean)) as [->|?]; heap_lookups;
      [by apply (twhere_idemp _ _ _ n d) | done].
  - destruct (decide (z2_logvar = z_logvar)) as [->|?]; heap_lookups;
      [by apply (twhere_idemp _ _ _ n d) | done].
  - intros x ? ? ? ?. by heap_lookups.
Qed.

(** C2: for an object built by [__init__] and two posteriors of one shape
    [[n, d]], [d >= 1], held in tensors of which no mean is also a logvar,
    [intercept_z] returns its four references; where the mask of
    [estimate_unchanged] is true both means hold the averaged mean and
    both logvars the averaged logvar; where it is false every tensor holds
    its original entry; tensors other than the four are not modified. *)
Theorem intercept_z_overwrites_masked
    (repr : string -> string) (set_iter : gset string -> list string)
    (beta : R) (average_mode : string) (s : AdaVaeLoss.self)
    z_mean z_logvar z2_mean z2_logvar h n d :
  AdaVaeLoss.__init__ repr set_iter beta average_mode = Ok s ->
  has_shape (h z_mean) n d -> has_shape (h z_logvar) n d ->
  has_shape (h z2_mean) n d -> has_shape (h z2_logvar) n d ->
  (0 < d)%nat ->
  z_mean <> z_logvar -> z_mean <> z2_logvar ->
  z2_mean <> z_logvar -> z2_mean <> z2_logvar ->
  exists kl_deltas kl_threshs ave_mask ave_mu ave_logvar h',
    estimate_unchanged (h z_mean) (h z_logvar) (h z2_mean) (h z2_logvar)
      = Ok (kl_deltas, kl_threshs, ave_mask)
    /\ AdaVaeLoss.compute_average s
         (h z_mean) (h z_logvar) (h z2_mean) (h z2_logvar)
       = Ok (ave_mu, ave_logvar)
    /\ AdaVaeLoss.intercept_z s z_mean z_logvar [z2_mean; z2_logvar] [] h
       = Ok ((z_mean, z_logvar, z2_mean, z2_logvar), h')
    /\ has_shape ave_mask n d
    /\ (forall i j, elem ave_mask i j = Some true ->
         is_Some (elem ave_mu i j) /\ is_Some (elem ave_logvar i j)
         /\ elem (h' z_mean) i j = elem ave_mu i j
         /\ elem (h' z2_mean) i j = elem ave_mu i j
         /\ elem (h' z_logvar) i j = elem ave_logvar i j
         /\ elem (h' z2_logvar) i j = elem ave_logvar i j)
    /\ (forall i j, elem ave_mask i j = Some false ->
         elem (h' z_mean) i j = elem (h z_mean) i j
         /\ elem (h' z_logvar) i j = elem (h z_logvar) i j
         /\ elem (h' z2_mean) i j = elem (h z2_mean) i j
         /\ elem (h' z2_logvar) i j = elem (h z2_logvar) i j)
    /\ (forall x, x <> z_mean -> x <> z_logvar -> x <> z2_mean ->
         x <> z2_logvar -> h' x = h x).
Proof.
  intros Hs H1 H2 H3 H4 Hpos N1 N2 N3 N4.
  destruct (estimate_unchanged_spec _ _ _ _ n d H1 H2 H3 H4 Hpos)
    as (kd & kt & mask & Hest & _ & _ & _ & _ & Sm & _).
  assert (Havg : exists mu lv,
             AdaVaeLoss.compute_average s
               (h z_mean) (h z_logvar) (h z2_mean) (h z2_logvar) = Ok (mu, lv)
             /\ has_shape mu n d /\ has_shape lv n d).
  { apply init_inv in Hs as [[_ ->]|[_ ->]]; simpl.
    - destruct (compute_average_gvae_elem _ _ _ _ n d H1 H2 H3 H4)
        as (mu & lv & ? & ? & ? & _). by exists mu, lv.
    - destruct (compute_average_ml_vae_elem _ _ _ _ n d H1 H2 H3 H4)
        as (mu & lv & ? & ? & ? & _). by exists mu, lv. }
  destruct Havg as (mu & lv & Havg & Smu & Slv).
  destruct (after_assignments_values mask mu lv
              z_mean z_logvar z2_mean z2_logvar h n d)
    as (V1 & V2 & V3 & V4 & Vo); [done..|].
  exists kd, kt, mask, mu, lv,
    (after_assignments mask mu lv z_mean z_logvar z2_mean z2_logvar h).
  split_and!; [done | done | by apply (intercept_z_run _ _ _ _ _ _ n d kd kt)
               | done | | | done].
  - intros i j Hb. rewrite V1, V2, V3, V4.
    destruct (elem_Some_lt _ _ _ _ _ _ Sm Hb) as [Hi Hj].
    rewrite !(elem_twhere_true _ _ _ n d) by done.
    split_and!; [by eapply elem_is_Some | by eapply elem_is_Some | done..].
  - intros i j Hb. rewrite V1, V2, V3, V4.
    by rewrite !(elem_twhere_false _ _ _ n d) by done.
Qed.

Lemma intercept_z_overwrites_masked_witness :
  exists kl_deltas kl_threshs ave_mask ave_mu ave_logvar h',
    estimate_unchanged (scenario_heap 0) (scenario_heap 1)
      (scenario_heap 2) (scenario_heap 3)
      = Ok (kl_deltas, kl_threshs, ave_mask)
    /\ AdaVaeLoss.compute_average (AdaVaeLoss.Self 4 compute_average_gvae)
         (scenario_heap 0) (scenario_heap 1) (scenario_heap 2) (scenario_heap 3)
       = Ok (ave_mu, ave_logvar)
    /\ AdaVaeLoss.intercept_z (AdaVaeLoss.Self 4 compute_average_gvae)
         0 1 [2; 3] [] scenario_heap
       = Ok ((0, 1, 2, 3), h')
    /\ has_shape ave_mask 1 2
    /\ (forall i j, elem ave_mask i j = Some true ->
         is_Some (elem ave_mu i j) /\ is_Some (elem ave_logvar i j)
         /\ elem (h' 0) i j = elem ave_mu i j
         /\ elem (h' 2) i j = elem ave_mu i j
         /\ elem (h' 1) i j = elem ave_logvar i j
         /\ elem (h' 3) i j = elem ave_logvar i j)
    /\ (forall i j, elem ave_mask i j = Some false ->
         elem (h' 0) i j = elem (scenario_heap 0) i j
         /\ elem (h' 1) i j = elem (scenario_heap 1) i j
         /\ elem (h' 2) i j = elem (scenario_heap 2) i j
         /\ elem (h' 3) i j = elem (scenario_heap 3) i j)
    /\ (forall x, x <> 0 -> x <> 1 -> x <> 2 -> x <> 3 ->
         h' x = scenario_heap x).
Proof.
  apply (intercept_z_overwrites_masked quoted elements 4 "gvae"
           (AdaVaeLoss.Self 4 compute_average_gvae) 0 1 2 3 scenario_heap 1 2);
    [apply init_gvae | concrete_shape.. | lia | lia | lia | lia | lia].
Defined.

(** ** Outside the preconditions *)

Lemma M_bind_raise {A B : Type} (m : M A) (f : A -> M B) h e :
  m h = Raise e -> (m ≫= f) h = Raise e.
Proof. intros Hm. unfold mbind, M_bind. by rewrite Hm. Qed.

(** With no latent dimension the reduction over axis 1 is refused, and
    [intercept_z] raises before any assignment. *)
Lemma intercept_z_empty_latent (s : AdaVaeLoss.self)
    z_mean z_logvar z2_mean z2_logvar h n :
  has_shape (h z_mean) n 0 -> has_shape (h z_logvar) n 0 ->
  has_shape (h z2_mean) n 0 -> has_shape (h z2_logvar) n 0 ->
  AdaVaeLoss.intercept_z s z_mean z_logvar [z2_mean; z2_logvar] [] h
  = Raise IndexError.
Proof.
  intros H1 H2 H3 H4.
  destruct (kl_normal_loss_pair_elements_elem _ _ _ _ n 0 H1 H2 H3 H4)
    as (kd & Hkd & (_ & Hc & _) & _).
  unfold AdaVaeLoss.intercept_z. rewrite decide_True by done.
  rewrite (M_bind_run _ _ h (h z_mean) h) by done.
  rewrite (M_bind_run _ _ h (h z_logvar) h) by done.
  rewrite (M_bind_run _ _ h (h z2_mean) h) by done.
  rewrite (M_bind_run _ _ h (h z2_logvar) h) by done.
  apply M_bind_raise. unfold lift, estimate_unchanged.
  rewrite Hkd. cbn [mbind result_bind].
  unfold estimate_kl_threshold, t_max_axis1.
  by rewrite decide_True.
Qed.

(** ** One pair with two latent dimensions *)

Lemma tensor_1x2 {X : Type} (t : tensor X) (a b : X) :
  has_shape t 1 2 -> elem t 0 0 = Some a -> elem t 0 1 = Some b ->
  t = Tensor 2 [[a; b]].
Proof.
  intros Ht Ha Hb. apply (tensor_ext _ _ 1 2); [done | concrete_shape |].
  intros i j Hi Hj.
  destruct i as [|i]; [|lia]. destruct j as [|[|j]]; [done | done | lia].
Qed.

Lemma estimate_unchanged_1x2 (m1a m1b l1a l1b m2a m2b l2a l2b : R) :
  let x := kl_delta_code m1a l1a m2a l2a in
  let y := kl_delta_code m1b l1b m2b l2b in
  let thr := (0.5 * (Rmax x y + Rmin x y))%R in
  exists kl_threshs,
    estimate_unchanged (Tensor 2 [[m1a; m1b]]) (Tensor 2 [[l1a; l1b]])
      (Tensor 2 [[m2a; m2b]]) (Tensor 2 [[l2a; l2b]])
    = Ok (Tensor 2 [[x; y]], kl_threshs,
          Tensor 2 [[bool_decide (x < thr)%R; bool_decide (y < thr)%R]]).
Proof.
  intros x y thr.
  destruct (estimate_unchanged_spec
              (Tensor 2 [[m1a; m1b]]) (Tensor 2 [[l1a; l1b]])
              (Tensor 2 [[m2a; m2b]]) (Tensor 2 [[l2a; l2b]]) 1 2)
    as (kd & kt & mask & Heq & Hkd & _ & _ & _ & Sm & Hm);
    [concrete_shape.. | lia |].
  rewrite (kl_normal_loss_pair_elements_same _ _ _ _ 1 2) in Hkd
    by concrete_shape.
  injection Hkd as <-.
  exists kt. rewrite Heq. do 2 f_equal.
  apply tensor_1x2; [done | |].
  - by rewrite (Hm 0 0 x [x; y] eq_refl eq_refl).
  - by rewrite (Hm 0 1 y [x; y] eq_refl eq_refl).
Qed.

(** The scenario of section 8: dimension 0 is judged unchanged and
    dimension 1 changed; under [gvae] the means after the call are
    [[0, 0]] and [[0, 5]]. *)
Example intercept_z_scenario :
  exists h' (a0 a1 b0 b1 : R),
    AdaVaeLoss.intercept_z (AdaVaeLoss.Self 4 compute_average_gvae)
      0 1 [2; 3] [] scenario_heap = Ok ((0, 1, 2, 3), h')
    /\ h' 0 = Tensor 2 [[a0; a1]] /\ h' 2 = Tensor 2 [[b0; b1]]
    /\ a0 = 0%R /\ a1 = 0%R /\ b0 = 0%R /\ b1 = 5%R.
Proof.
  destruct (estimate_unchanged_1x2 0 0 0 0 0 5 0 0) as (kt & Hest).
  cbv zeta in Hest.
  assert (X : kl_delta_code 0 0 0 0 = 0%R) by apply kl_delta_code_same.
  assert (Y : kl_delta_code 0 0 5 0 = 12.5%R).
  { rewrite kl_delta_code_simpl, exp_0. lra. }
  rewrite X, Y in Hest.
  rewrite Rmax_right, Rmin_left in Hest by lra.
  rewrite bool_decide_eq_true_2, bool_decide_eq_false_2 in Hest by lra.
  pose proof (compute_average_gvae_same
                (scenario_heap 0) (scenario_heap 1)
                (scenario_heap 2) (scenario_heap 3) 1 2) as Havg.
  specialize (Havg ltac:(concrete_shape) ltac:(concrete_shape)
                ltac:(concrete_shape) ltac:(concrete_shape)).
  pose proof (intercept_z_run (AdaVaeLoss.Self 4 compute_average_gvae)
                0 1 2 3 scenario_heap 1 2 _ _ _ _ _
                ltac:(concrete_shape) ltac:(concrete_shape)
                ltac:(concrete_shape) ltac:(concrete_shape)
                Hest Havg ltac:(concrete_shape) ltac:(concrete_shape)
                ltac:(concrete_shape)) as Hrun.
  eexists _, _, _, _, _. split; [exact Hrun|].
  split_and!; [reflexivity | reflexivity | cbn; lra..].
Qed.

(** Why the mean and logvar tensors must be distinct objects: when one
    tensor is passed as both [z_mean] and [z_logvar], the second masked
    assignment overwrites the first, and at the unchanged position the
    first mean ends as the averaged logvar [0] while the second mean
    receives the averaged mean [0.5]. *)
Example intercept_z_aliased_mean_logvar :
  exists h' (a0 a1 b0 b1 : R),
    AdaVaeLoss.intercept_z (AdaVaeLoss.Self 4 compute_average_gvae)
      0 0 [2; 3] [] aliased_heap = Ok ((0, 0, 2, 3), h')
    /\ h' 0 = Tensor 2 [[a0; a1]] /\ h' 2 = Tensor 2 [[b0; b1]]
    /\ a0 = 0%R /\ b0 = 0.5%R.
Proof.
  destruct (estimate_unchanged_1x2 0 0 0 0 1 5 0 0) as (kt & Hest).
  cbv zeta in Hest.
  assert (X : kl_delta_code 0 0 1 0 = 0.5%R).
  { rewrite kl_delta_code_simpl, exp_0. lra. }
  assert (Y : kl_delta_code 0 0 5 0 = 12.5%R).
  { rewrite kl_delta_code_simpl, exp_0. lra. }
  rewrite X, Y in Hest.
  rewrite Rmax_right, Rmin_left in Hest by lra.
  rewrite bool_decide_eq_true_2, bool_decide_eq_false_2 in Hest by lra.
  pose proof (compute_average_gvae_same
                (aliased_heap 0) (aliased_heap 0)
                (aliased_heap 2) (aliased_heap 3) 1 2) as Havg.
  specialize (Havg ltac:(concrete_shape) ltac:(concrete_shape)
                ltac:(concrete_shape) ltac:(concrete_shape)).
  pose proof (intercept_z_run (AdaVaeLoss.Self 4 compute_average_gvae)
                0 0 2 3 aliased_heap 1 2 _ _ _ _ _
                ltac:(concrete_shape) ltac:(concrete_shape)
                ltac:(concrete_shape) ltac:(concrete_shape)
                Hest Havg ltac:(concrete_shape) ltac:(concrete_shape)
                ltac:(concrete_shape)) as Hrun.
  eexists _, _, _, _, _. split; [exact Hrun|].
  split_and!; [reflexivity | reflexivity | cbn | cbn; lra].
  rewrite exp_0. replace ((1 + 1) * 0.5)%R with 1%R by lra. apply ln_1.
Qed.
End intercept.

(** * Further properties of the estimators *)

Section mask_structure.
Local Open Scope R_scope.
Implicit Types (i j n d : nat).
Implicit Types (z_mean z_logvar z2_mean z2_logvar kl_deltas : tensor R).

Lemma is_row_max_unique (r : list R) x y :
  is_row_max r x -> is_row_max r y -> x = y.
Proof. intros [Hx Hxa] [Hy Hya]. apply Rle_antisym; auto. Qed.


Lemma row_nonempty (t : tensor R) n d i r :
  has_shape t n d -> (0 < d)%nat -> rows t !! i = Some r -> r <> [].
Proof.
  intros (_ & Hd & Hwf) Hpos Hr.
  pose proof (Forall_lookup_1 _ _ _ _ Hwf Hr) as Hlen; simpl in Hlen.
  intros ->. simpl in Hlen. lia.
Qed.

Lemma elem_row (t : tensor R) i j r : 
  rows t !! i = Some r -> elem t i j = r !! j.
Proof. intros Hr. unfold elem. by rewrite Hr. Qed.

(** X1: on posteriors of one shape with at least one latent dimension,
    [estimate_unchanged] marks every position that carries its row's
    largest delta as changed, so every row of the mask has a [false]
    entry: no pair has all of its dimensions averaged. *)
Theorem estimate_unchanged_max_is_changed
    z_mean z_logvar z2_mean z2_logvar n d :
  has_shape z_mean n d -> has_shape z_logvar n d ->
  has_shape z2_mean n d -> has_shape z2_logvar n d ->
  (0 < d)%nat ->
  exists kl_deltas kl_threshs unchanged_mask,
    estimate_unchanged z_mean z_logvar z2_mean z2_logvar
      = Ok (kl_deltas, kl_threshs, unchanged_mask)
    /\ (forall i j r x, rows kl_deltas !! i = Some r -> r !! j = Some x ->
        is_row_max r x -> elem unchanged_mask i j = Some false)
    /\ (forall i, (i < n)%nat -> exists j, elem unchanged_mask i j = Some false).
Proof.
  intros H1 H2 H3 H4 Hpos.
  destruct (estimate_unchanged_spec _ _ _ _ n d H1 H2 H3 H4 Hpos)
    as (kd & kt & mask & Heq & _ & _ & Skd & _ & Sm & Hm).
  exists kd, kt, mask. split; [done|].
  assert (Hmax : forall i j r x, rows kd !! i = Some r -> r !! j = Some x ->
                 is_row_max r x -> elem mask i j = Some false).
  { intros i j r x Hr Hx Hmx.
    rewrite (Hm i j x r) by (by rewrite ?(elem_row _ _ _ _ Hr)).
    f_equal. apply bool_decide_eq_false.
    pose proof (row_nonempty _ _ _ _ _ Skd Hpos Hr) as Hne.
    rewrite <- (is_row_max_unique r _ _ Hmx (row_max_spec r Hne)).
    pose proof (row_min_le_max r _ _ Hmx (row_min_spec r Hne)). lra. }
  split; [done|].
  intros i Hi. destruct Skd as (Hn & Hd & Hwf). unfold nrows in Hn.
  destruct (lookup_lt_is_Some_2 (rows kd) i) as [r Hr]; [lia|].
  assert (Hne : r <> []).
  { eapply row_nonempty; [|done..]. by split_and!. }
  destruct (row_max_spec r Hne) as [Hin Hall].
  apply list_elem_of_lookup in Hin as [j Hj].
  exists j. eapply Hmax; [done..|]. by apply row_max_spec.
Qed.

Lemma estimate_unchanged_max_is_changed_witness :
  exists kl_deltas kl_threshs unchanged_mask,
    estimate_unchanged (Tensor 2 [[0; 0]]) (Tensor 2 [[0; 0]])
      (Tensor 2 [[0; 5]]) (Tensor 2 [[0; 0]])
      = Ok (kl_deltas, kl_threshs, unchanged_mask)
    /\ (forall i j r x, rows kl_deltas !! i = Some r -> r !! j = Some x ->
        is_row_max r x -> elem unchanged_mask i j = Some false)
    /\ (forall i, (i < 1)%nat -> exists j, elem unchanged_mask i j = Some false).
Proof.
  apply (estimate_unchanged_max_is_changed
           (Tensor 2 [[0; 0]]) (Tensor 2 [[0; 0]])
           (Tensor 2 [[0; 5]]) (Tensor 2 [[0; 0]]) 1 2);
    [concrete_shape.. | lia].
Defined.


End mask_structure.

(** ** When nothing is averaged *)

Section nothing_averaged.
Local Open Scope R_scope.
Implicit Types (h : loc -> tensor R) (i j n d : nat).

Lemma twhere_all_false {X : Type} (mask : tensor bool) (a t : tensor X) n d :
  has_shape mask n d -> has_shape a n d -> has_shape t n d ->
  (forall i j, (i < n)%nat -> (j < d)%nat -> elem mask i j = Some false) ->
  twhere mask a t = t.
Proof.
  intros Hm Ha Ht Hall.
  apply (tensor_ext _ _ n d); [by apply has_shape_twhere | done |].
  intros i j Hi Hj. apply (elem_twhere_false _ _ _ n d); auto.
Qed.

Lemma after_assignments_all_false (mask : tensor bool) (mu lv : tensor R)
    z_mean z_logvar z2_mean z2_logvar h n d :
  has_shape (h z_mean) n d -> has_shape (h z_logvar) n d ->
  has_shape (h z2_mean) n d -> has_shape (h z2_logvar) n d ->
  has_shape mask n d -> has_shape mu n d -> has_shape lv n d ->
  (forall i j, (i < n)%nat -> (j < d)%nat -> elem mask i j = Some false) ->
  forall x,
    after_assignments mask mu lv z_mean z_logvar z2_mean z2_logvar h x = h x.
Proof.
  intros H1 H2 H3 H4 Sm Smu Slv Hall. unfold after_assignments. cbv zeta.
  set (h1 := <[z_mean := twhere mask mu (h z_mean)]> h).
  assert (E1 : forall x, h1 x = h x).
  { intros x. unfold h1. destruct (decide (z_mean = x)) as [->|?].
    - rewrite fn_lookup_insert. by apply (twhere_all_false _ _ _ n d).
    - by rewrite fn_lookup_insert_ne. }
  set (h2 := <[z_logvar := twhere mask lv (h1 z_logvar)]> h1).
  assert (E2 : forall x, h2 x = h x).
  { intros x. unfold h2. destruct (decide (z_logvar = x)) as [->|?].
    - rewrite fn_lookup_insert, E1. by apply (twhere_all_false _ _ _ n d).
    - by rewrite fn_lookup_insert_ne. }
  set (h3 := <[z2_mean := twhere mask mu (h2 z2_mean)]> h2).
  assert (E3 : forall x, h3 x = h x).
  { intros x. unfold h3. destruct (decide (z2_mean = x)) as [->|?].
    - rewrite fn_lookup_insert, E2. by apply (twhere_all_false _ _ _ n d).
    - by rewrite fn_lookup_insert_ne. }
  intros x. destruct (decide (z2_logvar = x)) as [->|?].
  - rewrite fn_lookup_insert, E3. by apply (twhere_all_false _ _ _ n d).
  - by rewrite fn_lookup_insert_ne.
Qed.

Lemma constant_row_threshold (r : list R) (x : R) :
  x ∈ r -> (forall y, y ∈ r -> y = x) ->
  bool_decide (x < 0.5 * (row_max r + row_min r)) = false.
Proof.
  intros Hx Hconst. assert (Hne : r <> []) by (intros ->; by apply elem_of_nil in Hx).
  destruct (row_max_spec r Hne) as [Hmx _].
  destruct (row_min_spec r Hne) as [Hmn _].
  rewrite (Hconst _ Hmx), (Hconst _ Hmn).
  apply bool_decide_eq_false. lra.
Qed.

(** When the deltas of every row are all equal, [intercept_z] returns its
    references and every tensor of the heap has its original contents. *)
Lemma intercept_z_constant_rows
    (repr : string -> string) (set_iter : gset string -> list string)
    (beta : R) (average_mode : string) (s : AdaVaeLoss.self)
    z_mean z_logvar z2_mean z2_logvar h n d :
  AdaVaeLoss.__init__ repr set_iter beta average_mode = Ok s ->
  has_shape (h z_mean) n d -> has_shape (h z_logvar) n d ->
  has_shape (h z2_mean) n d -> has_shape (h z2_logvar) n d ->
  (0 < d)%nat ->
  (forall kl_deltas i r (y z : R),
     kl_normal_loss_pair_elements
       (h z_mean) (h z_logvar) (h z2_mean) (h z2_logvar) = Ok kl_deltas ->
     rows kl_deltas !! i = Some r -> y ∈ r -> z ∈ r -> y = z) ->
  exists h',
    AdaVaeLoss.intercept_z s z_mean z_logvar [z2_mean; z2_logvar] [] h
      = Ok ((z_mean, z_logvar, z2_mean, z2_logvar), h')
    /\ forall x, h' x = h x.
Proof.
  intros Hs H1 H2 H3 H4 Hpos Hconst.
  destruct (estimate_unchanged_spec _ _ _ _ n d H1 H2 H3 H4 Hpos)
    as (kd & kt & mask & Hest & Hkd & _ & Skd & _ & Sm & Hm).
  assert (Hfalse : forall i j, (i < n)%nat -> (j < d)%nat ->
                   elem mask i j = Some false).
  { intros i j Hi Hj.
    destruct (elem_is_Some kd n d i j Skd Hi Hj) as [x Hx].
    destruct (rows kd !! i) as [r|] eqn:Hr;
      [|unfold elem in Hx; by rewrite Hr in Hx].
    rewrite (Hm i j x r Hx Hr). f_equal.
    assert (Hin : x ∈ r).
    { unfold elem in Hx. rewrite Hr in Hx. by eapply list_elem_of_lookup_2. }
    apply constant_row_threshold; [done|].
    intros y Hy. by apply (Hconst kd i r). }
  assert (Havg : exists mu lv,
             AdaVaeLoss.compute_average s
               (h z_mean) (h z_logvar) (h z2_mean) (h z2_logvar) = Ok (mu, lv)
             /\ has_shape mu n d /\ has_shape lv n d).
  { apply init_inv in Hs as [[_ ->]|[_ ->]]; simpl.
    - destruct (compute_average_gvae_elem _ _ _ _ n d H1 H2 H3 H4)
        as (mu & lv & ? & ? & ? & _). by exists mu, lv.
    - destruct (compute_average_ml_vae_elem _ _ _ _ n d H1 H2 H3 H4)
        as (mu & lv & ? & ? & ? & _). by exists mu, lv. }
  destruct Havg as (mu & lv & Havg & Smu & Slv).
  eexists. split; [by apply (intercept_z_run _ _ _ _ _ _ n d kd kt mask mu lv)|].
  by apply (after_assignments_all_false _ _ _ _ _ _ _ _ n d).
Qed.

(** X3: when the two posteriors hold the same values, [intercept_z]
    changes nothing: every delta is zero, the threshold is zero, no
    position is strictly below it, and all tensors keep their contents. *)
Theorem intercept_z_identical_posteriors_unchanged
    (repr : string -> string) (set_iter : gset string -> list string)
    (beta : R) (average_mode : string) (s : AdaVaeLoss.self)
    z_mean z_logvar z2_mean z2_logvar h n d :
  AdaVaeLoss.__init__ repr set_iter beta average_mode = Ok s ->
  has_shape (h z_mean) n d -> has_shape (h z_logvar) n d ->
  (0 < d)%nat ->
  h z2_mean = h z_mean -> h z2_logvar = h z_logvar ->
  exists h',
    AdaVaeLoss.intercept_z s z_mean z_logvar [z2_mean; z2_logvar] [] h
      = Ok ((z_mean, z_logvar, z2_mean, z2_logvar), h')
    /\ forall x, h' x = h x.
Proof.
  intros Hs H1 H2 Hpos Em El.
  apply (intercept_z_constant_rows repr set_iter beta average_mode s
           _ _ _ _ h n d); [done | done | done | by rewrite Em | by rewrite El
                            | done |].
  intros kd i r y z Hkd Hr Hy Hz. rewrite Em, El in Hkd.
  destruct (kl_normal_loss_pair_elements_elem _ _ _ _ n d H1 H2 H1 H2)
    as (kd' & Hkd' & Skd & Hel).
  rewrite Hkd in Hkd'. injection Hkd' as <-.
  assert (Hzero : forall w, w ∈ r -> w = 0).
  { intros w [j Hj]%list_elem_of_lookup.
    assert (Hw : elem kd i j = Some w) by (unfold elem; by rewrite Hr).
    destruct (elem_Some_lt _ _ _ _ _ _ Skd Hw) as [Hi Hjd].
    destruct (elem_is_Some _ _ _ _ _ H1 Hi Hjd) as [m Hm'].
    destruct (elem_is_Some _ _ _ _ _ H2 Hi Hjd) as [l Hl'].
    rewrite (Hel i j m l m l) in Hw by done.
    injection Hw as <-. apply kl_delta_code_same. }
  by rewrite (Hzero y), (Hzero z).
Qed.

Lemma intercept_z_identical_posteriors_unchanged_witness :
  exists h',
    AdaVaeLoss.intercept_z (AdaVaeLoss.Self 4 compute_average_ml_vae)
      0%nat 1%nat [3%nat; 4%nat] [] scenario_heap
      = Ok ((0%nat, 1%nat, 3%nat, 4%nat), h')
    /\ forall x, h' x = scenario_heap x.
Proof.
  apply (intercept_z_identical_posteriors_unchanged quoted elements 4 "ml-vae"
           (AdaVaeLoss.Self 4 compute_average_ml_vae)
           0%nat 1%nat 3%nat 4%nat scenario_heap 1 2);
    [apply init_ml_vae | concrete_shape | concrete_shape | lia
     | reflexivity | reflexivity].
Defined.

(** X4: with a single latent dimension the threshold of a row is its only
    delta, the strict comparison fails, and [intercept_z] changes
    nothing. *)
Theorem intercept_z_single_latent_unchanged
    (repr : string -> string) (set_iter : gset string -> list string)
    (beta : R) (average_mode : string) (s : AdaVaeLoss.self)
    z_mean z_logvar z2_mean z2_logvar h n :
  AdaVaeLoss.__init__ repr set_iter beta average_mode = Ok s ->
  has_shape (h z_mean) n 1 -> has_shape (h z_logvar) n 1 ->
  has_shape (h z2_mean) n 1 -> has_shape (h z2_logvar) n 1 ->
  exists h',
    AdaVaeLoss.intercept_z s z_mean z_logvar [z2_mean; z2_logvar] [] h
      = Ok ((z_mean, z_logvar, z2_mean, z2_logvar), h')
    /\ forall x, h' x = h x.
Proof.
  intros Hs H1 H2 H3 H4.
  apply (intercept_z_constant_rows repr set_iter beta average_mode s
           _ _ _ _ h n 1); [done.. | lia |].
  intros kd i r y z Hkd Hr Hy Hz.
  destruct (kl_normal_loss_pair_elements_elem _ _ _ _ n 1 H1 H2 H3 H4)
    as (kd' & Hkd' & (_ & Hc & Hwf) & _).
  rewrite Hkd in Hkd'. injection Hkd' as <-.
  pose proof (Forall_lookup_1 _ _ _ _ Hwf Hr) as Hlen; simpl in Hlen.
  rewrite Hc in Hlen. destruct r as [|w [|? ?]]; simplify_eq/=.
  apply list_elem_of_singleton in Hy, Hz. by subst.
Qed.

Lemma intercept_z_single_latent_unchanged_witness :
  exists h',
    AdaVaeLoss.intercept_z (AdaVaeLoss.Self 4 compute_average_gvae)
      0%nat 1%nat [2%nat; 3%nat] [] (fun l => Tensor 1 [[INR l]; [1]])
      = Ok ((0%nat, 1%nat, 2%nat, 3%nat), h')
    /\ forall x, h' x = Tensor 1 [[INR x]; [1]].
Proof.
  apply (intercept_z_single_latent_unchanged quoted elements 4 "gvae"
           (AdaVaeLoss.Self 4 compute_average_gvae) 0%nat 1%nat 2%nat 3%nat
           (fun l => Tensor 1 [[INR l]; [1]]) 2);
    [apply init_gvae | concrete_shape..].
Defined.
End nothing_averaged.

(** * Further properties of the averaging functions and the deltas *)

Section averaging_properties.
Local Open Scope R_scope.
Implicit Types (i j n d : nat).
Implicit Types (z_mean z_logvar z2_mean z2_logvar : tensor R).

(** X5: both averaging functions are symmetric in the two posteriors:
    exchanging them gives the same averaged mean and logvar. *)
Theorem compute_average_symmetric z_mean z_logvar z2_mean z2_logvar n d :
  has_shape z_mean n d -> has_shape z_logvar n d ->
  has_shape z2_mean n d -> has_shape z2_logvar n d ->
  (exists ave_mean ave_logvar,
     compute_average_gvae z_mean z_logvar z2_mean z2_logvar
       = Ok (ave_mean, ave_logvar)
     /\ compute_average_gvae z2_mean z2_logvar z_mean z_logvar
        = Ok (ave_mean, ave_logvar))
  /\ (exists ave_mean ave_logvar,
        compute_average_ml_vae z_mean z_logvar z2_mean z2_logvar
          = Ok (ave_mean, ave_logvar)
        /\ compute_average_ml_vae z2_mean z2_logvar z_mean z_logvar
           = Ok (ave_mean, ave_logvar)).
Proof.
  intros H1 H2 H3 H4. split.
  - destruct (compute_average_gvae_elem _ _ _ _ n d H1 H2 H3 H4)
      as (am & al & Heq & Sm & Sl & Hel).
    destruct (compute_average_gvae_elem _ _ _ _ n d H3 H4 H1 H2)
      as (am' & al' & Heq' & Sm' & Sl' & Hel').
    exists am, al. split; [done|]. rewrite Heq'. do 2 f_equal.
    + apply (tensor_ext _ _ n d); [done..|]. intros i j Hi Hj.
      destruct (four_elems _ _ _ _ n d i j H1 H2 H3 H4 Hi Hj)
        as (m1 & l1 & m2 & l2 & E1 & E2 & E3 & E4).
      destruct (Hel i j m1 l1 m2 l2) as [-> _]; [done..|].
      destruct (Hel' i j m2 l2 m1 l1) as [-> _]; [done..|].
      f_equal. lra.
    + apply (tensor_ext _ _ n d); [done..|]. intros i j Hi Hj.
      destruct (four_elems _ _ _ _ n d i j H1 H2 H3 H4 Hi Hj)
        as (m1 & l1 & m2 & l2 & E1 & E2 & E3 & E4).
      destruct (Hel i j m1 l1 m2 l2) as [_ ->]; [done..|].
      destruct (Hel' i j m2 l2 m1 l1) as [_ ->]; [done..|].
      do 2 f_equal. lra.
  - destruct (compute_average_ml_vae_elem _ _ _ _ n d H1 H2 H3 H4)
      as (am & al & Heq & Sm & Sl & Hel).
    destruct (compute_average_ml_vae_elem _ _ _ _ n d H3 H4 H1 H2)
      as (am' & al' & Heq' & Sm' & Sl' & Hel').
    exists am, al. split; [done|]. rewrite Heq'. do 2 f_equal.
    + apply (tensor_ext _ _ n d); [done..|]. intros i j Hi Hj.
      destruct (four_elems _ _ _ _ n d i j H1 H2 H3 H4 Hi Hj)
        as (m1 & l1 & m2 & l2 & E1 & E2 & E3 & E4).
      destruct (Hel i j m1 l1 m2 l2) as [-> _]; [done..|].
      destruct (Hel' i j m2 l2 m1 l1) as [-> _]; [done..|].
      f_equal.
      replace (/ exp l2 + / exp l1) with (/ exp l1 + / exp l2) by lra. ring.
    + apply (tensor_ext _ _ n d); [done..|]. intros i j Hi Hj.
      destruct (four_elems _ _ _ _ n d i j H1 H2 H3 H4 Hi Hj)
        as (m1 & l1 & m2 & l2 & E1 & E2 & E3 & E4).
      destruct (Hel i j m1 l1 m2 l2) as [_ ->]; [done..|].
      destruct (Hel' i j m2 l2 m1 l1) as [_ ->]; [done..|].
      by replace (/ exp l2 + / exp l1) with (/ exp l1 + / exp l2) by lra.
Qed.

Lemma compute_average_symmetric_witness :
  (exists ave_mean ave_logvar,
     compute_average_gvae (Tensor 2 [[0; 1]]) (Tensor 2 [[0; -1]])
       (Tensor 2 [[0; 5]]) (Tensor 2 [[2; 1]]) = Ok (ave_mean, ave_logvar)
     /\ compute_average_gvae (Tensor 2 [[0; 5]]) (Tensor 2 [[2; 1]])
          (Tensor 2 [[0; 1]]) (Tensor 2 [[0; -1]]) = Ok (ave_mean, ave_logvar))
  /\ (exists ave_mean ave_logvar,
        compute_average_ml_vae (Tensor 2 [[0; 1]]) (Tensor 2 [[0; -1]])
          (Tensor 2 [[0; 5]]) (Tensor 2 [[2; 1]]) = Ok (ave_mean, ave_logvar)
        /\ compute_average_ml_vae (Tensor 2 [[0; 5]]) (Tensor 2 [[2; 1]])
             (Tensor 2 [[0; 1]]) (Tensor 2 [[0; -1]])
           = Ok (ave_mean, ave_logvar)).
Proof.
  apply (compute_average_symmetric
           (Tensor 2 [[0; 1]]) (Tensor 2 [[0; -1]])
           (Tensor 2 [[0; 5]]) (Tensor 2 [[2; 1]]) 1 2); concrete_shape.
Defined.

(** X6: averaging a posterior with a copy of itself.  [gvae] returns the
    posterior unchanged; [ml-vae] keeps the mean and halves the variance
    (its logvar drops by [ln 2]). *)
Theorem compute_average_of_identical z_mean z_logvar n d :
  has_shape z_mean n d -> has_shape z_logvar n d ->
  compute_average_gvae z_mean z_logvar z_mean z_logvar = Ok (z_mean, z_logvar)
  /\ exists ave_logvar,
       compute_average_ml_vae z_mean z_logvar z_mean z_logvar
         = Ok (z_mean, ave_logvar)
       /\ has_shape ave_logvar n d
       /\ forall i j l, elem z_logvar i j = Some l ->
          exists l', elem ave_logvar i j = Some l'
                     /\ l' = l - ln 2 /\ exp l' = exp l / 2.
Proof.
  intros H1 H2. split.
  - destruct (compute_average_gvae_elem _ _ _ _ n d H1 H2 H1 H2)
      as (am & al & Heq & Sm & Sl & Hel).
    rewrite Heq. do 2 f_equal.
    + apply (tensor_ext _ _ n d); [done..|]. intros i j Hi Hj.
      destruct (elem_is_Some _ _ _ _ _ H1 Hi Hj) as [m Em].
      destruct (elem_is_Some _ _ _ _ _ H2 Hi Hj) as [l El].
      destruct (Hel i j m l m l) as [-> _]; [done..|].
      rewrite Em. f_equal. lra.
    + apply (tensor_ext _ _ n d); [done..|]. intros i j Hi Hj.
      destruct (elem_is_Some _ _ _ _ _ H1 Hi Hj) as [m Em].
      destruct (elem_is_Some _ _ _ _ _ H2 Hi Hj) as [l El].
      destruct (Hel i j m l m l) as [_ ->]; [done..|].
      rewrite El. f_equal.
      replace ((exp l + exp l) * 0.5) with (exp l) by lra. apply ln_exp.
  - destruct (compute_average_ml_vae_elem _ _ _ _ n d H1 H2 H1 H2)
      as (am & al & Heq & Sm & Sl & Hel).
    exists al. split_and!; [|done|].
    + rewrite Heq. do 2 f_equal.
      apply (tensor_ext _ _ n d); [done..|]. intros i j Hi Hj.
      destruct (elem_is_Some _ _ _ _ _ H1 Hi Hj) as [m Em].
      destruct (elem_is_Some _ _ _ _ _ H2 Hi Hj) as [l El].
      destruct (Hel i j m l m l) as [-> _]; [done..|].
      rewrite Em. f_equal. pose proof (exp_pos l). field. lra.
    + intros i j l El.
      destruct (elem_Some_lt _ _ _ _ _ _ H2 El) as [Hi Hj].
      destruct (elem_is_Some _ _ _ _ _ H1 Hi Hj) as [m Em].
      destruct (Hel i j m l m l) as [_ Hal]; [done..|].
      eexists. split; [exact Hal|].
      pose proof (exp_pos l) as P.
      assert (Hv : / (/ exp l + / exp l) = exp l / 2) by (field; lra).
      rewrite Hv. split.
      * unfold Rdiv. rewrite ln_mult, ln_exp, ln_Rinv by lra. lra.
      * apply exp_ln. lra.
Qed.

Lemma compute_average_of_identical_witness :
  compute_average_gvae (Tensor 2 [[0; 5]]) (Tensor 2 [[1; -2]])
    (Tensor 2 [[0; 5]]) (Tensor 2 [[1; -2]])
  = Ok (Tensor 2 [[0; 5]], Tensor 2 [[1; -2]])
  /\ exists ave_logvar,
       compute_average_ml_vae (Tensor 2 [[0; 5]]) (Tensor 2 [[1; -2]])
         (Tensor 2 [[0; 5]]) (Tensor 2 [[1; -2]])
         = Ok (Tensor 2 [[0; 5]], ave_logvar)
       /\ has_shape ave_logvar 1 2
       /\ forall i j l, elem (Tensor 2 [[1; -2]]) i j = Some l ->
          exists l', elem ave_logvar i j = Some l'
                     /\ l' = l - ln 2 /\ exp l' = exp l / 2.
Proof.
  apply (compute_average_of_identical
           (Tensor 2 [[0; 5]]) (Tensor 2 [[1; -2]]) 1 2); concrete_shape.
Defined.

Lemma weighted_mean_between (m1 m2 a b : R) :
  0 < a -> 0 < b ->
  Rmin m1 m2 <= (m1 * a + m2 * b) * / (a + b) <= Rmax m1 m2.
Proof.
  intros Ha Hb.
  assert (Hs : 0 < / (a + b)) by (apply Rinv_0_lt_compat; lra).
  assert (Hlo : Rmin m1 m2 = Rmin m1 m2 * (a + b) * / (a + b)) by (field; lra).
  assert (Hhi : Rmax m1 m2 = Rmax m1 m2 * (a + b) * / (a + b)) by (field; lra).
  pose proof (Rmin_l m1 m2). pose proof (Rmin_r m1 m2).
  pose proof (Rmax_l m1 m2). pose proof (Rmax_r m1 m2).
  split.
  - rewrite Hlo. apply Rmult_le_compat_r; [lra | nra].
  - rewrite Hhi. apply Rmult_le_compat_r; [lra | nra].
Qed.

Lemma harmonic_half_bounds (v1 v2 : R) :
  0 < v1 -> 0 < v2 ->
  Rmin v1 v2 / 2 <= / (/ v1 + / v2) /\ / (/ v1 + / v2) <= (v1 + v2) * 0.5 / 2.
Proof.
  intros P1 P2.
  assert (Hv : / (/ v1 + / v2) = v1 * v2 * / (v1 + v2)) by (field; lra).
  assert (Hs : 0 < / (v1 + v2)) by (apply Rinv_0_lt_compat; lra).
  rewrite Hv. split.
  - assert (Hm : Rmin v1 v2 / 2 = Rmin v1 v2 / 2 * (v1 + v2) * / (v1 + v2))
      by (field; lra).
    rewrite Hm. apply Rmult_le_compat_r; [lra|].
    unfold Rmin. destruct (Rle_dec v1 v2); nra.
  - assert (Hm : (v1 + v2) * 0.5 / 2
                 = (v1 + v2) * 0.5 / 2 * (v1 + v2) * / (v1 + v2))
      by (field; lra).
    rewrite Hm. apply Rmult_le_compat_r; [lra|].
    pose proof (pow2_ge_0 (v1 - v2)). nra.
Qed.

(** X7: at every position the mean returned by either averaging function
    lies between the two input means, and the variance returned by
    [compute_average_gvae] lies between the two input variances. *)
Theorem compute_average_within_inputs z_mean z_logvar z2_mean z2_logvar n d :
  has_shape z_mean n d -> has_shape z_logvar n d ->
  has_shape z2_mean n d -> has_shape z2_logvar n d ->
  exists g_mean g_logvar p_mean p_logvar,
    compute_average_gvae z_mean z_logvar z2_mean z2_logvar
      = Ok (g_mean, g_logvar)
    /\ compute_average_ml_vae z_mean z_logvar z2_mean z2_logvar
       = Ok (p_mean, p_logvar)
    /\ forall i j m1 l1 m2 l2,
        elem z_mean i j = Some m1 -> elem z_logvar i j = Some l1 ->
        elem z2_mean i j = Some m2 -> elem z2_logvar i j = Some l2 ->
        exists gm gl pm,
          elem g_mean i j = Some gm /\ elem g_logvar i j = Some gl
          /\ elem p_mean i j = Some pm
          /\ Rmin m1 m2 <= gm <= Rmax m1 m2
          /\ Rmin m1 m2 <= pm <= Rmax m1 m2
          /\ Rmin (exp l1) (exp l2) <= exp gl <= Rmax (exp l1) (exp l2).
Proof.
  intros H1 H2 H3 H4.
  destruct (compute_average_gvae_elem _ _ _ _ n d H1 H2 H3 H4)
    as (gm & gl & Hg & _ & _ & Hgel).
  destruct (compute_average_ml_vae_elem _ _ _ _ n d H1 H2 H3 H4)
    as (pm & pl & Hp & _ & _ & Hpel).
  exists gm, gl, pm, pl. split_and!; [done..|].
  intros i j m1 l1 m2 l2 E1 E2 E3 E4.
  destruct (Hgel i j m1 l1 m2 l2 E1 E2 E3 E4) as [Egm Egl].
  destruct (Hpel i j m1 l1 m2 l2 E1 E2 E3 E4) as [Epm _].
  eexists _, _, _. split_and!; [done | done | done | | | | | |].
  - unfold Rmin. destruct (Rle_dec m1 m2); lra.
  - unfold Rmax. destruct (Rle_dec m1 m2); lra.
  - apply weighted_mean_between; apply Rinv_0_lt_compat, exp_pos.
  - apply weighted_mean_between; apply Rinv_0_lt_compat, exp_pos.
  - pose proof (exp_pos l1). pose proof (exp_pos l2).
    rewrite exp_ln by lra. unfold Rmin. destruct (Rle_dec (exp l1) (exp l2)); lra.
  - pose proof (exp_pos l1). pose proof (exp_pos l2).
    rewrite exp_ln by lra. unfold Rmax. destruct (Rle_dec (exp l1) (exp l2)); lra.
Qed.

Lemma compute_average_within_inputs_witness :
  exists g_mean g_logvar p_mean p_logvar,
    compute_average_gvae (Tensor 2 [[0; 1]]) (Tensor 2 [[0; -1]])
      (Tensor 2 [[0; 5]]) (Tensor 2 [[2; 1]]) = Ok (g_mean, g_logvar)
    /\ compute_average_ml_vae (Tensor 2 [[0; 1]]) (Tensor 2 [[0; -1]])
         (Tensor 2 [[0; 5]]) (Tensor 2 [[2; 1]]) = Ok (p_mean, p_logvar)
    /\ forall i j m1 l1 m2 l2,
        elem (Tensor 2 [[0; 1]]) i j = Some m1 ->
        elem (Tensor 2 [[0; -1]]) i j = Some l1 ->
        elem (Tensor 2 [[0; 5]]) i j = Some m2 ->
        elem (Tensor 2 [[2; 1]]) i j = Some l2 ->
        exists gm gl pm,
          elem g_mean i j = Some gm /\ elem g_logvar i j = Some gl
          /\ elem p_mean i j = Some pm
          /\ Rmin m1 m2 <= gm <= Rmax m1 m2
          /\ Rmin m1 m2 <= pm <= Rmax m1 m2
          /\ Rmin (exp l1) (exp l2) <= exp gl <= Rmax (exp l1) (exp l2).
Proof.
  apply (compute_average_within_inputs
           (Tensor 2 [[0; 1]]) (Tensor 2 [[0; -1]])
           (Tensor 2 [[0; 5]]) (Tensor 2 [[2; 1]]) 1 2); concrete_shape.
Defined.

(** X8: at every position the variance returned by
    [compute_average_ml_vae] is at least half the smaller input variance
    and at most half the variance returned by [compute_average_gvae]. *)
Theorem compute_average_ml_vae_variance_bounds
    z_mean z_logvar z2_mean z2_logvar n d :
  has_shape z_mean n d -> has_shape z_logvar n d ->
  has_shape z2_mean n d -> has_shape z2_logvar n d ->
  exists g_mean g_logvar p_mean p_logvar,
    compute_average_gvae z_mean z_logvar z2_mean z2_logvar
      = Ok (g_mean, g_logvar)
    /\ compute_average_ml_vae z_mean z_logvar z2_mean z2_logvar
       = Ok (p_mean, p_logvar)
    /\ forall i j, (i < n)%nat -> (j < d)%nat ->
        exists l1 l2 gl pl,
          elem z_logvar i j = Some l1 /\ elem z2_logvar i j = Some l2
          /\ elem g_logvar i j = Some gl /\ elem p_logvar i j = Some pl
          /\ Rmin (exp l1) (exp l2) / 2 <= exp pl
          /\ exp pl <= exp gl / 2.
Proof.
  intros H1 H2 H3 H4.
  destruct (compute_average_gvae_elem _ _ _ _ n d H1 H2 H3 H4)
    as (gm & gl & Hg & _ & _ & Hgel).
  destruct (compute_average_ml_vae_elem _ _ _ _ n d H1 H2 H3 H4)
    as (pm & pl & Hp & _ & _ & Hpel).
  exists gm, gl, pm, pl. split_and!; [done..|].
  intros i j Hi Hj.
  destruct (four_elems _ _ _ _ n d i j H1 H2 H3 H4 Hi Hj)
    as (m1 & l1 & m2 & l2 & E1 & E2 & E3 & E4).
  destruct (Hgel i j m1 l1 m2 l2 E1 E2 E3 E4) as [_ Egl].
  destruct (Hpel i j m1 l1 m2 l2 E1 E2 E3 E4) as [_ Epl].
  exists l1, l2. eexists _, _. split_and!; [done..| |].
  - pose proof (exp_pos l1) as P1. pose proof (exp_pos l2) as P2.
    pose proof (Rinv_0_lt_compat _ P1). pose proof (Rinv_0_lt_compat _ P2).
    rewrite exp_ln by (apply Rinv_0_lt_compat; lra).
    by apply harmonic_half_bounds.
  - pose proof (exp_pos l1) as P1. pose proof (exp_pos l2) as P2.
    pose proof (Rinv_0_lt_compat _ P1). pose proof (Rinv_0_lt_compat _ P2).
    rewrite !exp_ln by first [lra | apply Rinv_0_lt_compat; lra].
    by apply harmonic_half_bounds.
Qed.

Lemma compute_average_ml_vae_variance_bounds_witness :
  exists g_mean g_logvar p_mean p_logvar,
    compute_average_gvae (Tensor 2 [[0; 1]]) (Tensor 2 [[0; -1]])
      (Tensor 2 [[0; 5]]) (Tensor 2 [[2; 1]]) = Ok (g_mean, g_logvar)
    /\ compute_average_ml_vae (Tensor 2 [[0; 1]]) (Tensor 2 [[0; -1]])
         (Tensor 2 [[0; 5]]) (Tensor 2 [[2; 1]]) = Ok (p_mean, p_logvar)
    /\ forall i j, (i < 1)%nat -> (j < 2)%nat ->
        exists l1 l2 gl pl,
          elem (Tensor 2 [[0; -1]]) i j = Some l1
          /\ elem (Tensor 2 [[2; 1]]) i j = Some l2
          /\ elem g_logvar i j = Some gl /\ elem p_logvar i j = Some pl
          /\ Rmin (exp l1) (exp l2) / 2 <= exp pl
          /\ exp pl <= exp gl / 2.
Proof.
  apply (compute_average_ml_vae_variance_bounds
           (Tensor 2 [[0; 1]]) (Tensor 2 [[0; -1]])
           (Tensor 2 [[0; 5]]) (Tensor 2 [[2; 1]]) 1 2); concrete_shape.
Defined.

Lemma kl_delta_code_lower (m1 l1 m2 l2 : R) :
  -0.5 < kl_delta_code m1 l1 m2 l2
  /\ (l2 <= l1 -> 0 <= kl_delta_code m1 l1 m2 l2).
Proof.
  rewrite kl_delta_code_simpl.
  pose proof (exp_pos l1) as P1. pose proof (exp_pos l2) as P2.
  pose proof (Rinv_0_lt_compat _ P2) as Q2.
  assert (Hsq : 0 <= (m2 - m1) ^ 2 / exp l2).
  { apply Rmult_le_pos; [apply pow2_ge_0 | lra]. }
  assert (Hq : 0 < exp l1 / exp l2) by (by apply Rmult_lt_0_compat).
  split; [lra|]. intros Hl.
  assert (Hge : 1 <= exp l1 / exp l2).
  { assert (He : exp l2 <= exp l1).
    { destruct Hl as [Hl| ->]; [left; by apply exp_increasing | lra]. }
    replace 1 with (exp l2 * / exp l2) by (field; lra).
    apply Rmult_le_compat_r; lra. }
  lra.
Qed.

(** X9: every delta returned by [kl_normal_loss_pair_elements] is greater
    than [-0.5], and it is non-negative wherever the first posterior's
    logvar is at least the second's. *)
Theorem kl_normal_loss_pair_elements_lower_bound
    z_mean z_logvar z2_mean z2_logvar n d :
  has_shape z_mean n d -> has_shape z_logvar n d ->
  has_shape z2_mean n d -> has_shape z2_logvar n d ->
  exists kl_deltas,
    kl_normal_loss_pair_elements z_mean z_logvar z2_mean z2_logvar = Ok kl_deltas
    /\ forall i j, (i < n)%nat -> (j < d)%nat ->
        exists l1 l2 x,
          elem z_logvar i j = Some l1 /\ elem z2_logvar i j = Some l2
          /\ elem kl_deltas i j = Some x
          /\ -0.5 < x /\ (l2 <= l1 -> 0 <= x).
Proof.
  intros H1 H2 H3 H4.
  destruct (kl_normal_loss_pair_elements_elem _ _ _ _ n d H1 H2 H3 H4)
    as (kd & Hkd & _ & Hel).
  exists kd. split; [done|]. intros i j Hi Hj.
  destruct (four_elems _ _ _ _ n d i j H1 H2 H3 H4 Hi Hj)
    as (m1 & l1 & m2 & l2 & E1 & E2 & E3 & E4).
  exists l1, l2, (kl_delta_code m1 l1 m2 l2).
  split_and!; [done | done | by apply Hel | apply kl_delta_code_lower..].
Qed.

Lemma kl_normal_loss_pair_elements_lower_bound_witness :
  exists kl_deltas,
    kl_normal_loss_pair_elements (Tensor 2 [[0; 1]]) (Tensor 2 [[0; -1]])
      (Tensor 2 [[0; 5]]) (Tensor 2 [[2; 1]]) = Ok kl_deltas
    /\ forall i j, (i < 1)%nat -> (j < 2)%nat ->
        exists l1 l2 x,
          elem (Tensor 2 [[0; -1]]) i j = Some l1
          /\ elem (Tensor 2 [[2; 1]]) i j = Some l2
          /\ elem kl_deltas i j = Some x
          /\ -0.5 < x /\ (l2 <= l1 -> 0 <= x).
Proof.
  apply (kl_normal_loss_pair_elements_lower_bound
           (Tensor 2 [[0; 1]]) (Tensor 2 [[0; -1]])
           (Tensor 2 [[0; 5]]) (Tensor 2 [[2; 1]]) 1 2); concrete_shape.
Defined.
End averaging_properties.

(** * Error behaviour *)

Section errors.
Local Open Scope R_scope.
Implicit Types (h : loc -> tensor R) (n d : nat).
Implicit Types (z_mean z_logvar z2_mean z2_logvar : loc).

Lemma bcast_dim_None (n m : nat) :
  n <> m -> n <> 1%nat -> m <> 1%nat -> bcast_dim n m = None.
Proof. intros. unfold bcast_dim. by rewrite !decide_False. Qed.

Lemma binop_incompatible {X Y Z : Type} (f : X -> Y -> Z)
    (a : tensor X) (b : tensor Y) :
  (nrows a <> nrows b /\ nrows a <> 1%nat /\ nrows b <> 1%nat)
  \/ (ncols a <> ncols b /\ ncols a <> 1%nat /\ ncols b <> 1%nat) ->
  binop f a b = Raise RuntimeError.
Proof.
  intros [(? & ? & ?)|(? & ? & ?)]; unfold binop.
  - by rewrite bcast_dim_None.
  - rewrite (bcast_dim_None (ncols a)) by done.
    by destruct (bcast_dim (nrows a) (nrows b)).
Qed.

Lemma M_bind_loads {A : Type} (k : tensor R -> tensor R -> tensor R -> tensor R -> M A)
    (a b c e : loc) h :
  (zm ← load a; zl ← load b; z2m ← load c; z2l ← load e; k zm zl z2m z2l) h
  = k (h a) (h b) (h c) (h e) h.
Proof. done. Qed.

(** X10: with no latent dimension ([ncols = 0]) the reduction over axis 1
    is refused: [estimate_kl_threshold] raises [IndexError], and so do
    [estimate_unchanged] and [intercept_z] on posteriors of shape [[n, 0]],
    whatever the batch size. *)
Theorem empty_latent_raises_IndexError (s : AdaVaeLoss.self)
    z_mean z_logvar z2_mean z2_logvar h n :
  has_shape (h z_mean) n 0 -> has_shape (h z_logvar) n 0 ->
  has_shape (h z2_mean) n 0 -> has_shape (h z2_logvar) n 0 ->
  (forall t : tensor R, ncols t = 0%nat ->
     estimate_kl_threshold t = Raise IndexError)
  /\ estimate_unchanged (h z_mean) (h z_logvar) (h z2_mean) (h z2_logvar)
     = Raise IndexError
  /\ AdaVaeLoss.intercept_z s z_mean z_logvar [z2_mean; z2_logvar] [] h
     = Raise IndexError.
Proof.
  intros H1 H2 H3 H4.
  assert (Hthr : forall t : tensor R, ncols t = 0%nat ->
                 estimate_kl_threshold t = Raise IndexError).
  { intros t Ht. unfold estimate_kl_threshold, t_max_axis1.
    by rewrite decide_True. }
  destruct (kl_normal_loss_pair_elements_elem _ _ _ _ n 0 H1 H2 H3 H4)
    as (kd & Hkd & (_ & Hc & _) & _).
  assert (Hest : estimate_unchanged
                   (h z_mean) (h z_logvar) (h z2_mean) (h z2_logvar)
                 = Raise IndexError).
  { unfold estimate_unchanged. rewrite Hkd. cbn [mbind result_bind].
    by rewrite Hthr. }
  split_and!; [done | done |].
  unfold AdaVaeLoss.intercept_z. rewrite decide_True by done.
  rewrite M_bind_loads. apply M_bind_raise. unfold lift. by rewrite Hest.
Qed.

Lemma empty_latent_raises_IndexError_witness :
  (forall t : tensor R, ncols t = 0%nat ->
     estimate_kl_threshold t = Raise IndexError)
  /\ estimate_unchanged (Tensor 0 [[]; []]) (Tensor 0 [[]; []])
       (Tensor 0 [[]; []]) (Tensor 0 [[]; []]) = Raise IndexError
  /\ AdaVaeLoss.intercept_z (AdaVaeLoss.Self 4 compute_average_gvae)
       0%nat 1%nat [2%nat; 3%nat] [] (fun _ => Tensor 0 [[]; []])
     = Raise IndexError.
Proof.
  apply (empty_latent_raises_IndexError
           (AdaVaeLoss.Self 4 compute_average_gvae) 0%nat 1%nat 2%nat 3%nat
           (fun _ => Tensor 0 [[]; []]) 2); concrete_shape.
Defined.

Lemma nrows_tmap {X Y : Type} (f : X -> Y) (t : tensor X) :
  nrows (tmap f t) = nrows t.
Proof. unfold nrows, tmap; simpl. by rewrite length_fmap. Qed.

(** X11: when the two logvar tensors cannot be broadcast against each
    other (their row counts, or their column counts, differ and neither
    is 1), every numeric function raises [RuntimeError], and so does
    [intercept_z], before any tensor is modified. *)
Theorem incompatible_shapes_raise_RuntimeError (s : AdaVaeLoss.self)
    (z_mean z_logvar z2_mean z2_logvar : loc) h :
  (nrows (h z_logvar) <> nrows (h z2_logvar)
   /\ nrows (h z_logvar) <> 1%nat /\ nrows (h z2_logvar) <> 1%nat)
  \/ (ncols (h z_logvar) <> ncols (h z2_logvar)
      /\ ncols (h z_logvar) <> 1%nat /\ ncols (h z2_logvar) <> 1%nat) ->
  compute_average_gvae (h z_mean) (h z_logvar) (h z2_mean) (h z2_logvar)
    = Raise RuntimeError
  /\ compute_average_ml_vae (h z_mean) (h z_logvar) (h z2_mean) (h z2_logvar)
     = Raise RuntimeError
  /\ kl_normal_loss_pair_elements
       (h z_mean) (h z_logvar) (h z2_mean) (h z2_logvar) = Raise RuntimeError
  /\ estimate_unchanged (h z_mean) (h z_logvar) (h z2_mean) (h z2_logvar)
     = Raise RuntimeError
  /\ AdaVaeLoss.intercept_z s z_mean z_logvar [z2_mean; z2_logvar] [] h
     = Raise RuntimeError.
Proof.
  intros Hinc.
  assert (Hkl : kl_normal_loss_pair_elements
                  (h z_mean) (h z_logvar) (h z2_mean) (h z2_logvar)
                = Raise RuntimeError).
  { unfold kl_normal_loss_pair_elements, t_div, t_exp.
    rewrite binop_incompatible; [done|]. by rewrite !nrows_tmap. }
  assert (Hest : estimate_unchanged
                   (h z_mean) (h z_logvar) (h z2_mean) (h z2_logvar)
                 = Raise RuntimeError).
  { unfold estimate_unchanged. by rewrite Hkl. }
  split_and!; [| | done | done |].
  - unfold compute_average_gvae, t_add, t_exp. cbv zeta.
    rewrite (binop_incompatible Rplus
               (tmap exp (h z_logvar)) (tmap exp (h z2_logvar)));
      [reflexivity|]. by rewrite !nrows_tmap.
  - unfold compute_average_ml_vae, t_add, t_exp, t_reciprocal. cbv zeta.
    rewrite (binop_incompatible Rplus
               (tmap Rinv (tmap exp (h z_logvar)))
               (tmap Rinv (tmap exp (h z2_logvar))));
      [reflexivity|]. by rewrite !nrows_tmap.
  - unfold AdaVaeLoss.intercept_z. rewrite decide_True by done.
    rewrite M_bind_loads. apply M_bind_raise. unfold lift. by rewrite Hest.
Qed.

Lemma incompatible_shapes_raise_RuntimeError_witness :
  let h := fun l : loc =>
             match l with
             | 1%nat => Tensor 2 [[0; 0]; [0; 0]]
             | _ => Tensor 2 [[0; 0]; [0; 0]; [0; 0]]
             end in
  compute_average_gvae (h 0%nat) (h 1%nat) (h 2%nat) (h 3%nat)
    = Raise RuntimeError
  /\ compute_average_ml_vae (h 0%nat) (h 1%nat) (h 2%nat) (h 3%nat)
     = Raise RuntimeError
  /\ kl_normal_loss_pair_elements (h 0%nat) (h 1%nat) (h 2%nat) (h 3%nat)
     = Raise RuntimeError
  /\ estimate_unchanged (h 0%nat) (h 1%nat) (h 2%nat) (h 3%nat)
     = Raise RuntimeError
  /\ AdaVaeLoss.intercept_z (AdaVaeLoss.Self 4 compute_average_gvae)
       0%nat 1%nat [2%nat; 3%nat] [] h
     = Raise RuntimeError.
Proof.
  intros h.
  apply (incompatible_shapes_raise_RuntimeError
           (AdaVaeLoss.Self 4 compute_average_gvae) 0%nat 1%nat 2%nat 3%nat h).
  left. unfold nrows; simpl. lia.
Defined.

(** ** Broadcasting a one-row posterior *)

Lemma bcast_dim_1_l d : bcast_dim 1 d = Some d.
Proof. unfold bcast_dim. repeat case_decide; congruence. Qed.

Lemma bcast_dim_Some (n m r : nat) :
  bcast_dim n m = Some r -> (n = r \/ n = 1%nat) /\ (m = r \/ m = 1%nat).
Proof. unfold bcast_dim. repeat case_decide; intros [= <-]; auto. Qed.

Lemma length_stretch {X : Type} (l : list X) k :
  length l = k \/ length l = 1%nat -> length (stretch k l) = k.
Proof.
  intros [Hl|Hl]; [by rewrite stretch_id | by apply length_stretch_1].
Qed.

Lemma Forall_stretch {X : Type} (P : X -> Prop) (l : list X) k :
  Forall P l -> Forall P (stretch k l).
Proof.
  intros Hl. destruct l as [|x [|y l]]; simpl; [done | | done].
  apply Forall_replicate. by inversion Hl.
Qed.

Lemma Forall_zip_rows {X Y Z : Type} (g : list X -> list Y -> list Z)
    (la : list (list X)) (lb : list (list Y)) (ca cb c : nat) :
  Forall (fun r => length r = ca) la ->
  Forall (fun r => length r = cb) lb ->
  (forall ra rb, length ra = ca -> length rb = cb -> length (g ra rb) = c) ->
  Forall (fun r => length r = c) (zip_with g la lb).
Proof.
  intros Ha. revert lb. induction Ha as [|ra la Hra Ha IH]; intros lb Hb Hg;
    [constructor|].
  destruct Hb as [|rb lb Hrb Hb]; simpl; constructor; auto.
Qed.

(** A binary operation on broadcastable shapes succeeds, with the
    broadcast shape. *)
Lemma binop_shape {X Y Z : Type} (f : X -> Y -> Z)
    (a : tensor X) (b : tensor Y) (ra ca rb cb r c : nat) :
  has_shape a ra ca -> has_shape b rb cb ->
  bcast_dim ra rb = Some r -> bcast_dim ca cb = Some c ->
  exists t, binop f a b = Ok t /\ has_shape t r c.
Proof.
  intros (Han & Hac & Hawf) (Hbn & Hbc & Hbwf) Hr Hc. unfold binop.
  rewrite Han, Hbn, Hac, Hbc, Hr, Hc.
  apply bcast_dim_Some in Hr as [Hr1 Hr2].
  apply bcast_dim_Some in Hc as [Hc1 Hc2].
  unfold nrows, wf in *. rewrite Hac in Hawf. rewrite Hbc in Hbwf.
  eexists. split; [done|].
  unfold has_shape, nrows, wf; simpl. rewrite length_zip_with.
  rewrite !length_stretch by (rewrite ?Han, ?Hbn; tauto).
  split_and!; [lia | done |].
  apply (Forall_zip_rows _ _ _ ca cb); [by apply Forall_stretch.. |].
  intros xa xb Hxa Hxb. rewrite length_zip_with.
  rewrite !length_stretch by (rewrite ?Hxa, ?Hxb; tauto). lia.
Qed.

Ltac bcast_step H :=
  let t := fresh "t" in
  let E := fresh "E" in
  let S := fresh "S" in
  edestruct H as (t & E & S);
  [ first [eassumption | by apply has_shape_tmap]
  | first [eassumption | by apply has_shape_tmap]
  | first [apply bcast_dim_same | apply bcast_dim_1_l | apply bcast_dim_1_r]
  | first [apply bcast_dim_same | apply bcast_dim_1_l | apply bcast_dim_1_r]
  | rewrite E; cbn [mbind result_bind] ].

Lemma kl_normal_loss_pair_elements_one_row
    (zm zl z2m z2l : tensor R) n d :
  has_shape zm 1 d -> has_shape zl 1 d ->
  has_shape z2m n d -> has_shape z2l n d ->
  exists kd, kl_normal_loss_pair_elements zm zl z2m z2l = Ok kd
             /\ has_shape kd n d.
Proof.
  intros H1 H2 H3 H4.
  unfold kl_normal_loss_pair_elements, t_div, t_sub, t_add, t_exp, t_pow.
  bcast_step (binop_shape Rdiv (tmap exp zl) (tmap exp z2l) 1 d n d n d).
  bcast_step (binop_shape Rminus z2m zm n d 1 d n d).
  pose proof (has_shape_tmap (fun x => x ^ 2) _ _ _ S0) as S0'.
  bcast_step (binop_shape Rdiv (tmap (fun x => x ^ 2) t0) (tmap exp z2l)
                n d n d n d).
  bcast_step (binop_shape Rplus t t1 n d n d n d).
  pose proof (has_shape_tmap (fun x => x - 1) _ _ _ S2) as S2'.
  bcast_step (binop_shape Rminus zl zl 1 d 1 d 1 d).
  bcast_step (binop_shape Rplus (tmap (fun x => x - 1) t2) t3 n d 1 d n d).
  eexists. split; [done|]. by apply has_shape_tmap.
Qed.

Lemma compute_average_gvae_one_row (zm zl z2m z2l : tensor R) n d :
  has_shape zm 1 d -> has_shape zl 1 d ->
  has_shape z2m n d -> has_shape z2l n d ->
  exists mu lv, compute_average_gvae zm zl z2m z2l = Ok (mu, lv)
                /\ has_shape mu n d /\ has_shape lv n d.
Proof.
  intros H1 H2 H3 H4.
  unfold compute_average_gvae, t_add, t_exp, t_log. cbv zeta.
  bcast_step (binop_shape Rplus (tmap exp zl) (tmap exp z2l) 1 d n d n d).
  bcast_step (binop_shape Rplus zm z2m 1 d n d n d).
  eexists _, _. split; [done|]. split; by repeat apply has_shape_tmap.
Qed.

Lemma compute_average_ml_vae_one_row (zm zl z2m z2l : tensor R) n d :
  has_shape zm 1 d -> has_shape zl 1 d ->
  has_shape z2m n d -> has_shape z2l n d ->
  exists mu lv, compute_average_ml_vae zm zl z2m z2l = Ok (mu, lv)
                /\ has_shape mu n d /\ has_shape lv n d.
Proof.
  intros H1 H2 H3 H4.
  unfold compute_average_ml_vae, t_add, t_mul, t_exp, t_log, t_reciprocal.
  cbv zeta.
  pose proof (has_shape_tmap Rinv _ _ _ (has_shape_tmap exp _ _ _ H2)) as I1.
  pose proof (has_shape_tmap Rinv _ _ _ (has_shape_tmap exp _ _ _ H4)) as I2.
  bcast_step (binop_shape Rplus (tmap Rinv (tmap exp zl))
                (tmap Rinv (tmap exp z2l)) 1 d n d n d).
  pose proof (has_shape_tmap Rinv _ _ _ S) as S'.
  bcast_step (binop_shape Rmult zm (tmap Rinv (tmap exp zl)) 1 d 1 d 1 d).
  bcast_step (binop_shape Rmult z2m (tmap Rinv (tmap exp z2l)) n d n d n d).
  bcast_step (binop_shape Rplus t0 t1 1 d n d n d).
  bcast_step (binop_shape Rmult t2 (tmap Rinv t) n d n d n d).
  eexists _, _. split; [done|]. split; [done | by apply has_shape_tmap].
Qed.

(** X12: a posterior with a single row is broadcast against a posterior
    with [n] rows: [estimate_unchanged] and both averaging functions
    return results of shape [[n, d]] without complaint.  [intercept_z]
    then raises [IndexError] at its first masked assignment when
    [n <> 1], because the mask no longer has the shape of [z_mean]. *)
Theorem one_row_posterior_is_broadcast
    (repr : string -> string) (set_iter : gset string -> list string)
    (beta : R) (average_mode : string) (s : AdaVaeLoss.self)
    z_mean z_logvar z2_mean z2_logvar h n d :
  AdaVaeLoss.__init__ repr set_iter beta average_mode = Ok s ->
  has_shape (h z_mean) 1 d -> has_shape (h z_logvar) 1 d ->
  has_shape (h z2_mean) n d -> has_shape (h z2_logvar) n d ->
  (0 < d)%nat -> n <> 1%nat ->
  (exists kl_deltas kl_threshs unchanged_mask,
     estimate_unchanged (h z_mean) (h z_logvar) (h z2_mean) (h z2_logvar)
       = Ok (kl_deltas, kl_threshs, unchanged_mask)
     /\ has_shape kl_deltas n d /\ has_shape kl_threshs n 1
     /\ has_shape unchanged_mask n d)
  /\ (exists ave_mu ave_logvar,
        AdaVaeLoss.compute_average s
          (h z_mean) (h z_logvar) (h z2_mean) (h z2_logvar)
          = Ok (ave_mu, ave_logvar)
        /\ has_shape ave_mu n d /\ has_shape ave_logvar n d)
  /\ AdaVaeLoss.intercept_z s z_mean z_logvar [z2_mean; z2_logvar] [] h
     = Raise IndexError.
Proof.
  intros Hs H1 H2 H3 H4 Hpos Hn.
  destruct (kl_normal_loss_pair_elements_one_row _ _ _ _ n d H1 H2 H3 H4)
    as (kd & Hkd & Skd).
  destruct (estimate_kl_threshold_row _ n d Skd Hpos) as (kt & Hkt & Skt & _).
  destruct (binop_bcast_col (fun x y => bool_decide (x < y)) kd kt n d Skd Skt)
    as (mask & Hmask & Smask & _).
  assert (Hest : estimate_unchanged
                   (h z_mean) (h z_logvar) (h z2_mean) (h z2_logvar)
                 = Ok (kd, kt, mask)).
  { unfold estimate_unchanged. rewrite Hkd; cbn [mbind result_bind].
    rewrite Hkt; cbn [mbind result_bind]. unfold t_lt. by rewrite Hmask. }
  assert (Havg : exists mu lv,
             AdaVaeLoss.compute_average s
               (h z_mean) (h z_logvar) (h z2_mean) (h z2_logvar) = Ok (mu, lv)
             /\ has_shape mu n d /\ has_shape lv n d).
  { apply init_inv in Hs as [[_ ->]|[_ ->]]; simpl.
    - by apply compute_average_gvae_one_row.
    - by apply compute_average_ml_vae_one_row. }
  split; [by exists kd, kt, mask|]. split; [done|].
  destruct Havg as (mu & lv & Havg & Smu & Slv).
  destruct (select_then_assign mu mu mask n d Smu Smu Smask) as (vmu & Hvmu & _).
  destruct (select_then_assign lv lv mask n d Slv Slv Smask) as (vlv & Hvlv & _).
  unfold AdaVaeLoss.intercept_z. rewrite decide_True by done.
  rewrite M_bind_loads.
  rewrite (M_bind_run _ _ h (kd, kt, mask) h) by (unfold lift; by rewrite Hest).
  cbv beta iota.
  rewrite (M_bind_run _ _ h (mu, lv) h) by (unfold lift; by rewrite Havg).
  cbv beta iota.
  rewrite (M_bind_run _ _ h vmu h) by (unfold lift; by rewrite Hvmu).
  rewrite (M_bind_run _ _ h vlv h) by (unfold lift; by rewrite Hvlv).
  apply M_bind_raise. unfold setitem_mask.
  rewrite (M_bind_run _ _ h (h z_mean) h) by done.
  apply M_bind_raise. unfold lift, masked_assign.
  rewrite decide_False; [done|].
  destruct H1 as (R1 & _), Smask as (Rm & _). unfold shape. congruence.
Qed.

Lemma one_row_posterior_is_broadcast_witness :
  let h := fun l : loc =>
             match l with
             | 0%nat | 1%nat => Tensor 2 [[0; 0]]
             | _ => Tensor 2 [[0; 0]; [1; 5]]
             end in
  (exists kl_deltas kl_threshs unchanged_mask,
     estimate_unchanged (h 0%nat) (h 1%nat) (h 2%nat) (h 3%nat)
       = Ok (kl_deltas, kl_threshs, unchanged_mask)
     /\ has_shape kl_deltas 2 2 /\ has_shape kl_threshs 2 1
     /\ has_shape unchanged_mask 2 2)
  /\ (exists ave_mu ave_logvar,
        AdaVaeLoss.compute_average (AdaVaeLoss.Self 4 compute_average_gvae)
          (h 0%nat) (h 1%nat) (h 2%nat) (h 3%nat)
          = Ok (ave_mu, ave_logvar)
        /\ has_shape ave_mu 2 2 /\ has_shape ave_logvar 2 2)
  /\ AdaVaeLoss.intercept_z (AdaVaeLoss.Self 4 compute_average_gvae)
       0%nat 1%nat [2%nat; 3%nat] [] h
     = Raise IndexError.
Proof.
  intros h.
  apply (one_row_posterior_is_broadcast quoted elements 4 "gvae"
           (AdaVaeLoss.Self 4 compute_average_gvae)
           0%nat 1%nat 2%nat 3%nat h 2 2);
    [apply init_gvae | concrete_shape.. | lia | lia].
Defined.
End errors.

(** * The posteriors after [intercept_z] *)

Section after_intercept.
Local Open Scope R_scope.
Implicit Types (h : loc -> tensor R) (i j n d : nat).

(** X13: after [intercept_z] the four tensors keep their shape, and the
    deltas recomputed from them are zero at every position the mask
    marked unchanged and equal to the original delta at every other
    position. *)
Theorem intercept_z_then_kl_deltas
    (repr : string -> string) (set_iter : gset string -> list string)
    (beta : R) (average_mode : string) (s : AdaVaeLoss.self)
    (z_mean z_logvar z2_mean z2_logvar : loc) h n d :
  AdaVaeLoss.__init__ repr set_iter beta average_mode = Ok s ->
  has_shape (h z_mean) n d -> has_shape (h z_logvar) n d ->
  has_shape (h z2_mean) n d -> has_shape (h z2_logvar) n d ->
  (0 < d)%nat ->
  z_mean <> z_logvar -> z_mean <> z2_logvar ->
  z2_mean <> z_logvar -> z2_mean <> z2_logvar ->
  exists kl_deltas kl_threshs ave_mask h' kl_deltas',
    estimate_unchanged (h z_mean) (h z_logvar) (h z2_mean) (h z2_logvar)
      = Ok (kl_deltas, kl_threshs, ave_mask)
    /\ AdaVaeLoss.intercept_z s z_mean z_logvar [z2_mean; z2_logvar] [] h
       = Ok ((z_mean, z_logvar, z2_mean, z2_logvar), h')
    /\ has_shape (h' z_mean) n d /\ has_shape (h' z_logvar) n d
    /\ has_shape (h' z2_mean) n d /\ has_shape (h' z2_logvar) n d
    /\ kl_normal_loss_pair_elements
         (h' z_mean) (h' z_logvar) (h' z2_mean) (h' z2_logvar) = Ok kl_deltas'
    /\ (forall i j, elem ave_mask i j = Some true ->
        elem kl_deltas' i j = Some 0)
    /\ (forall i j, elem ave_mask i j = Some false ->
        elem kl_deltas' i j = elem kl_deltas i j).
Proof.
  intros Hs H1 H2 H3 H4 Hpos N1 N2 N3 N4.
  destruct (estimate_unchanged_spec _ _ _ _ n d H1 H2 H3 H4 Hpos)
    as (kd & kt & mask & Hest & Hkd & _ & Skd & _ & Sm & _).
  destruct (kl_normal_loss_pair_elements_elem _ _ _ _ n d H1 H2 H3 H4)
    as (kd0 & Hkd0 & _ & Hel).
  rewrite Hkd in Hkd0. injection Hkd0 as <-.
  assert (Havg : exists mu lv,
             AdaVaeLoss.compute_average s
               (h z_mean) (h z_logvar) (h z2_mean) (h z2_logvar) = Ok (mu, lv)
             /\ has_shape mu n d /\ has_shape lv n d).
  { apply init_inv in Hs as [[_ ->]|[_ ->]]; simpl.
    - destruct (compute_average_gvae_elem _ _ _ _ n d H1 H2 H3 H4)
        as (mu & lv & ? & ? & ? & _). by exists mu, lv.
    - destruct (compute_average_ml_vae_elem _ _ _ _ n d H1 H2 H3 H4)
        as (mu & lv & ? & ? & ? & _). by exists mu, lv. }
  destruct Havg as (mu & lv & Havg & Smu & Slv).
  destruct (after_assignments_values mask mu lv
              z_mean z_logvar z2_mean z2_logvar h n d)
    as (V1 & V2 & V3 & V4 & _); [done..|].
  set (h' := after_assignments mask mu lv z_mean z_logvar z2_mean z2_logvar h)
    in *.
  assert (S1 : has_shape (h' z_mean) n d)
    by (rewrite V1; by apply has_shape_twhere).
  assert (S2 : has_shape (h' z_logvar) n d)
    by (rewrite V2; by apply has_shape_twhere).
  assert (S3 : has_shape (h' z2_mean) n d)
    by (rewrite V3; by apply has_shape_twhere).
  assert (S4 : has_shape (h' z2_logvar) n d)
    by (rewrite V4; by apply has_shape_twhere).
  destruct (kl_normal_loss_pair_elements_elem _ _ _ _ n d S1 S2 S3 S4)
    as (kd' & Hkd' & _ & Hel').
  exists kd, kt, mask, h', kd'.
  split_and!; [done | by apply (intercept_z_run _ _ _ _ _ _ n d kd kt mask mu lv)
               | done.. | |].
  - intros i j Hb.
    destruct (elem_Some_lt _ _ _ _ _ _ Sm Hb) as [Hi Hj].
    destruct (elem_is_Some mu n d i j Smu Hi Hj) as [m Em].
    destruct (elem_is_Some lv n d i j Slv Hi Hj) as [l El].
    rewrite (Hel' i j m l m l).
    + by rewrite kl_delta_code_same.
    + by rewrite V1, (elem_twhere_true _ _ _ n d).
    + by rewrite V2, (elem_twhere_true _ _ _ n d).
    + by rewrite V3, (elem_twhere_true _ _ _ n d).
    + by rewrite V4, (elem_twhere_true _ _ _ n d).
  - intros i j Hb.
    destruct (elem_Some_lt _ _ _ _ _ _ Sm Hb) as [Hi Hj].
    destruct (four_elems _ _ _ _ n d i j H1 H2 H3 H4 Hi Hj)
      as (m1 & l1 & m2 & l2 & E1 & E2 & E3 & E4).
    rewrite (Hel i j m1 l1 m2 l2) by done.
    apply Hel'.
    + by rewrite V1, (elem_twhere_false _ _ _ n d).
    + by rewrite V2, (elem_twhere_false _ _ _ n d).
    + by rewrite V3, (elem_twhere_false _ _ _ n d).
    + by rewrite V4, (elem_twhere_false _ _ _ n d).
Qed.

Lemma intercept_z_then_kl_deltas_witness :
  exists kl_deltas kl_threshs ave_mask h' kl_deltas',
    estimate_unchanged (scenario_heap 0%nat) (scenario_heap 1%nat)
      (scenario_heap 2%nat) (scenario_heap 3%nat)
      = Ok (kl_deltas, kl_threshs, ave_mask)
    /\ AdaVaeLoss.intercept_z (AdaVaeLoss.Self 4 compute_average_ml_vae)
         0%nat 1%nat [2%nat; 3%nat] [] scenario_heap
       = Ok ((0%nat, 1%nat, 2%nat, 3%nat), h')
    /\ has_shape (h' 0%nat) 1 2 /\ has_shape (h' 1%nat) 1 2
    /\ has_shape (h' 2%nat) 1 2 /\ has_shape (h' 3%nat) 1 2
    /\ kl_normal_loss_pair_elements
         (h' 0%nat) (h' 1%nat) (h' 2%nat) (h' 3%nat) = Ok kl_deltas'
    /\ (forall i j, elem ave_mask i j = Some true ->
        elem kl_deltas' i j = Some 0)
    /\ (forall i j, elem ave_mask i j = Some false ->
        elem kl_deltas' i j = elem kl_deltas i j).
Proof.
  apply (intercept_z_then_kl_deltas quoted elements 4 "ml-vae"
           (AdaVaeLoss.Self 4 compute_average_ml_vae)
           0%nat 1%nat 2%nat 3%nat scenario_heap 1 2);
    [apply init_ml_vae | concrete_shape.. | lia | lia | lia | lia | lia].
Defined.
End after_intercept.

(** * [compute_loss] *)

Section loss_properties.
Local Open Scope R_scope.
Context {V : Type}.
Variable bce_loss : V -> V -> result R.
Variable kl_normal_loss : V -> V -> result R.

(** X14: when the four component losses are computed, [compute_loss]
    returns a dict with the single key ["loss"], whose value is the mean
    of the two Beta-VAE losses [recon + beta * kl] of the two observations;
    exchanging the two observations gives the same value, and
    [z_sampled] and the keyword arguments play no part. *)
Theorem compute_loss_mean_of_pair (s : AdaVaeLoss.self)
    (x x_recon z_mean z_logvar z_sampled : V)
    (x2 x2_recon z2_mean z2_logvar z2_sampled : V)
    (kwargs kwargs' : list (string * V)) (r1 r2 k1 k2 : R) :
  bce_loss x x_recon = Ok r1 -> bce_loss x2 x2_recon = Ok r2 ->
  kl_normal_loss z_mean z_logvar = Ok k1 ->
  kl_normal_loss z2_mean z2_logvar = Ok k2 ->
  exists loss,
    loss = ((r1 + AdaVaeLoss.beta s * k1) + (r2 + AdaVaeLoss.beta s * k2)) / 2
    /\ compute_loss V bce_loss kl_normal_loss s
         x x_recon z_mean z_logvar z_sampled
         [x2; x2_recon; z2_mean; z2_logvar; z2_sampled] kwargs
       = Ok {["loss" := loss]}
    /\ compute_loss V bce_loss kl_normal_loss s
         x2 x2_recon z2_mean z2_logvar z2_sampled
         [x; x_recon; z_mean; z_logvar; z_sampled] kwargs'
       = Ok {["loss" := loss]}.
Proof.
  intros Hr1 Hr2 Hk1 Hk2. eexists. split; [reflexivity|].
  unfold compute_loss. rewrite Hr1, Hr2, Hk1, Hk2. cbn [mbind result_bind].
  split; do 2 f_equal; lra.
Qed.

End loss_properties.

Lemma compute_loss_mean_of_pair_witness :
  (exists loss,
    loss = ((1 + AdaVaeLoss.beta (AdaVaeLoss.Self 4 compute_average_gvae) * 2)
            + (3 + AdaVaeLoss.beta (AdaVaeLoss.Self 4 compute_average_gvae) * 2))
           / 2
    /\ compute_loss R (fun a b => Ok (a + b)) (fun m l => Ok (m * l))
         (AdaVaeLoss.Self 4 compute_average_gvae)
         1 0 1 2 0 [1; 2; 2; 1; 0] [] = Ok {["loss" := loss]}
    /\ compute_loss R (fun a b => Ok (a + b)) (fun m l => Ok (m * l))
         (AdaVaeLoss.Self 4 compute_average_gvae)
         1 2 2 1 0 [1; 0; 1; 2; 0] [] = Ok {["loss" := loss]})%R.
Proof.
  apply (compute_loss_mean_of_pair
           (fun a b => Ok (a + b)) (fun m l => Ok (m * l))
           (AdaVaeLoss.Self 4 compute_average_gvae)
           1 0 1 2 0 1 2 2 1 0 [] [] 1 3 2 2)%R; f_equal; lra.
Defined.

(** * Dependence on the means, and argument checks *)

Section shift_and_arity.
Local Open Scope R_scope.
Implicit Types (i j n d : nat).

(** X15: the estimate depends on the two means only through their
    difference: adding one tensor [c] to both means leaves the deltas,
    the threshold and the mask of [estimate_unchanged] as they were. *)
Theorem estimate_unchanged_mean_shift
    (z_mean z_logvar z2_mean z2_logvar c z_mean' z2_mean' : tensor R) n d :
  has_shape z_mean n d -> has_shape z_logvar n d ->
  has_shape z2_mean n d -> has_shape z2_logvar n d ->
  has_shape c n d ->
  t_add z_mean c = Ok z_mean' -> t_add z2_mean c = Ok z2_mean' ->
  estimate_unchanged z_mean' z_logvar z2_mean' z2_logvar
  = estimate_unchanged z_mean z_logvar z2_mean z2_logvar.
Proof.
  intros H1 H2 H3 H4 Hc Ha Hb. unfold t_add in Ha, Hb.
  rewrite (binop_same_shape _ _ _ n d) in Ha by done.
  rewrite (binop_same_shape _ _ _ n d) in Hb by done.
  injection Ha as <-. injection Hb as <-.
  assert (S1 : has_shape (tzip Rplus z_mean c) n d) by by apply has_shape_tzip.
  assert (S3 : has_shape (tzip Rplus z2_mean c) n d) by by apply has_shape_tzip.
  destruct (kl_normal_loss_pair_elements_elem _ _ _ _ n d H1 H2 H3 H4)
    as (kd & Hkd & Skd & Hel).
  destruct (kl_normal_loss_pair_elements_elem _ _ _ _ n d S1 H2 S3 H4)
    as (kd' & Hkd' & Skd' & Hel').
  unfold estimate_unchanged. rewrite Hkd, Hkd'.
  replace kd' with kd; [done|].
  apply (tensor_ext _ _ n d); [done..|]. intros i j Hi Hj.
  destruct (four_elems _ _ _ _ n d i j H1 H2 H3 H4 Hi Hj)
    as (m1 & l1 & m2 & l2 & E1 & E2 & E3 & E4).
  destruct (elem_is_Some _ _ _ _ _ Hc Hi Hj) as [x Ex].
  rewrite (Hel i j m1 l1 m2 l2) by done.
  rewrite (Hel' i j (m1 + x) l1 (m2 + x) l2);
    [| by rewrite elem_tzip, E1, Ex | done
     | by rewrite elem_tzip, E3, Ex | done].
  f_equal. rewrite !kl_delta_code_simpl.
  by replace (m2 + x - (m1 + x)) with (m2 - m1) by lra.
Qed.

Lemma estimate_unchanged_mean_shift_witness :
  estimate_unchanged (tzip Rplus (Tensor 2 [[0; 1]]) (Tensor 2 [[3; 3]]))
    (Tensor 2 [[0; -1]])
    (tzip Rplus (Tensor 2 [[0; 5]]) (Tensor 2 [[3; 3]])) (Tensor 2 [[2; 1]])
  = estimate_unchanged (Tensor 2 [[0; 1]]) (Tensor 2 [[0; -1]])
      (Tensor 2 [[0; 5]]) (Tensor 2 [[2; 1]]).
Proof.
  apply (estimate_unchanged_mean_shift
           (Tensor 2 [[0; 1]]) (Tensor 2 [[0; -1]])
           (Tensor 2 [[0; 5]]) (Tensor 2 [[2; 1]]) (Tensor 2 [[3; 3]])
           _ _ 1 2); [concrete_shape.. | reflexivity | reflexivity].
Defined.

(** X16: [intercept_z] and [compute_loss] check their extra arguments
    before anything else.  [intercept_z] raises [ValueError] unless exactly
    two extra positional arguments are given, and [AssertionError] when
    two are given together with a keyword argument; [compute_loss] raises
    [ValueError] unless exactly five extra positional arguments are
    given.  No tensor is read or computed before that. *)
Theorem extra_arguments_checked {V : Type}
    (bce_loss kl_normal_loss : V -> V -> result R) (s : AdaVaeLoss.self)
    (z_mean z_logvar : loc) (args : list loc) (kwargs : list (string * loc))
    (h : loc -> tensor R)
    (x x_recon zm zl zs : V) (largs : list V) (lkwargs : list (string * V)) :
  (length args <> 2%nat ->
   AdaVaeLoss.intercept_z s z_mean z_logvar args kwargs h = Raise ValueError)
  /\ (length args = 2%nat -> kwargs <> [] ->
      AdaVaeLoss.intercept_z s z_mean z_logvar args kwargs h
      = Raise AssertionError)
  /\ (length largs <> 5%nat ->
      compute_loss V bce_loss kl_normal_loss s x x_recon zm zl zs largs lkwargs
      = Raise ValueError).
Proof.
  split_and!.
  - intros Hlen. unfold AdaVaeLoss.intercept_z.
    by destruct args as [|a [|b [|? ?]]].
  - intros Hlen Hkw. unfold AdaVaeLoss.intercept_z.
    destruct args as [|a [|b [|? ?]]]; try done.
    by rewrite decide_False.
  - intros Hlen. unfold compute_loss.
    by destruct largs as [|a1 [|a2 [|a3 [|a4 [|a5 [|? ?]]]]]].
Qed.

Lemma extra_arguments_checked_witness :
  AdaVaeLoss.intercept_z (AdaVaeLoss.Self 4 compute_average_gvae)
    0%nat 1%nat [2%nat; 3%nat; 4%nat] [] scenario_heap = Raise ValueError
  /\ AdaVaeLoss.intercept_z (AdaVaeLoss.Self 4 compute_average_gvae)
       0%nat 1%nat [2%nat; 3%nat] [("extra", 4%nat)] scenario_heap
     = Raise AssertionError
  /\ compute_loss R (fun a b => Ok (a + b)) (fun m l => Ok (m * l))
       (AdaVaeLoss.Self 4 compute_average_gvae) 1 0 1 2 0 [1; 2; 2; 1] []
     = Raise ValueError.
Proof.
  destruct (extra_arguments_checked
              (fun a b : R => Ok (a + b)) (fun m l : R => Ok (m * l))
              (AdaVaeLoss.Self 4 compute_average_gvae)
              0%nat 1%nat [2%nat; 3%nat; 4%nat] [] scenario_heap
              1 0 1 2 0 [1; 2; 2; 1] []) as (Ha & _ & Hc).
  destruct (extra_arguments_checked
              (fun a b : R => Ok (a + b)) (fun m l : R => Ok (m * l))
              (AdaVaeLoss.Self 4 compute_average_gvae)
              0%nat 1%nat [2%nat; 3%nat] [("extra", 4%nat)] scenario_heap
              1 0 1 2 0 [1; 2; 2; 1] []) as (_ & Hb & _).
  split_and!; [apply Ha | apply Hb | apply Hc]; simpl; try lia; done.
Defined.
End shift_and_arity.
